(** * Swag Store API: a shallow embedding of [main.py]

    The handlers of [main.py] are embedded as functions in a state and
    exception monad over the document store.  Python values read back from
    the store are modelled by [pyval]; the builtins the handlers call
    ([float], [bool], [or], [in], [dict.get], [ObjectId.is_valid]) are
    modelled on those values, with the exceptions they raise. *)

From Stdlib Require Import ZArith String Ascii List Lia SpecFloat.
From stdpp Require Import gmap strings list fin_maps.
Import ListNotations.

#[local] Set Warnings "-register-all".
#[local] Open Scope string_scope.
#[local] Open Scope list_scope.
#[local] Open Scope Z_scope.

(** ** Python values *)

(** The values a stored document can hold.  Floats are IEEE 754 binary64
    numbers, written with the Standard Library's [spec_float]. *)
Inductive pyval :=
  | PyNone
  | PyBool (b : bool)
  | PyInt (z : Z)
  | PyFloat (f : spec_float)
  | PyStr (s : string)
  | PyList (l : list pyval)
  | PyDict (d : gmap string pyval).

(** ** Exceptions *)

(** [str(e)] and the f-strings built from it are kept symbolic: the text of
    an interpreter message is not fixed by the program. *)
Inductive exn :=
  | ValueError
  | TypeError
  | OverflowError
  | NotImplementedError
  | ValidationError
  | InvalidId
  | StoreError (reason : string)
  | HTTPException (status_code : Z) (detail : text)
with text :=
  | Lit (s : string)
  | StrOf (e : exn)
  | Slice (t : text) (n : nat)
  | Cat (a b : text).

Inductive result (A : Type) :=
  | Ok (a : A)
  | Err (e : exn).
Arguments Ok {A} a.
Arguments Err {A} e.

#[global] Instance result_ret : MRet result := fun A a => Ok a.
#[global] Instance result_bind : MBind result := fun A B f r =>
  match r with
  | Ok a => f a
  | Err e => Err e
  end.

(** ** Builtins *)

Module Py.

Definition prec : Z := 53.
Definition emax : Z := 1024.

Definition zero : spec_float := S754_zero false.
Definition one : spec_float := S754_finite false 4503599627370496 (-52).

(** Truth value of a value: [None], [False], zero, and the empty string,
    list and dict are false; a NaN is true. *)
Definition truthy (v : pyval) : bool :=
  match v with
  | PyNone => false
  | PyBool b => b
  | PyInt z => negb (z =? 0)
  | PyFloat f =>
      match f with
      | S754_zero _ => false
      | _ => true
      end
  | PyStr s => negb (String.eqb s "")
  | PyList l =>
      match l with
      | [] => false
      | _ => true
      end
  | PyDict d => negb (bool_decide (d = ∅))
  end.

(** [a or b] *)
Definition or_ (a b : pyval) : pyval := if truthy a then a else b.

(** [d.get(k)] and [d.get(k, dflt)] *)
Definition get (d : gmap string pyval) (k : string) : pyval :=
  default PyNone (d !! k).
Definition get_or (d : gmap string pyval) (k : string) (dflt : pyval) : pyval :=
  default dflt (d !! k).

(** *** [float(s)] for a string

    A string is held as its UTF-8 bytes.  One with a character beyond
    ASCII is first brought to ASCII: a Unicode white space becomes a
    space, a Unicode decimal digit its ASCII digit, and any other such
    character makes the conversion fail.  Then leading and trailing white
    space (tab to carriage return, and space) is dropped; what is left is
    an optional sign and either [inf], [infinity], [nan] in any case, or a
    decimal literal with an optional fraction and exponent, where one
    underscore may stand between two digits.  The decimal value is rounded
    to the nearest binary64 number, ties to even.  The character tables
    are those of Unicode 14.0, which CPython 3.11 carries. *)

Definition is_space (c : ascii) : bool :=
  let n := N_of_ascii c in
  ((9 <=? n) && (n <=? 13) || (n =? 32))%N.

(** The code points of a UTF-8 text; [None] when the bytes are no UTF-8. *)
Definition continuation (c : ascii) : option N :=
  let n := N_of_ascii c in
  if ((128 <=? n) && (n <? 192))%N then Some (n - 128)%N else None.

Fixpoint utf8_decode (l : list ascii) : option (list N) :=
  match l with
  | [] => Some []
  | b0 :: r =>
      let n0 := N_of_ascii b0 in
      if (n0 <? 128)%N then cons n0 <$> utf8_decode r
      else if ((194 <=? n0) && (n0 <? 224))%N then
        match r with
        | b1 :: r1 =>
            c1 ← continuation b1;
            cons ((n0 - 192) * 64 + c1)%N <$> utf8_decode r1
        | _ => None
        end
      else if ((224 <=? n0) && (n0 <? 240))%N then
        match r with
        | b1 :: b2 :: r2 =>
            c1 ← continuation b1;
            c2 ← continuation b2;
            let cp := ((n0 - 224) * 4096 + c1 * 64 + c2)%N in
            if ((2048 <=? cp) && negb ((55296 <=? cp) && (cp <? 57344)))%N
            then cons cp <$> utf8_decode r2
            else None
        | _ => None
        end
      else if ((240 <=? n0) && (n0 <? 245))%N then
        match r with
        | b1 :: b2 :: b3 :: r3 =>
            c1 ← continuation b1;
            c2 ← continuation b2;
            c3 ← continuation b3;
            let cp := ((n0 - 240) * 262144 + c1 * 4096 + c2 * 64 + c3)%N in
            if ((65536 <=? cp) && (cp <? 1114112))%N
            then cons cp <$> utf8_decode r3
            else None
        | _ => None
        end
      else None
  end.

(** The white space of Unicode beyond ASCII. *)
Definition is_unicode_space (cp : N) : bool :=
  ((cp =? 0x85) || (cp =? 0xa0) || (cp =? 0x1680) ||
   (0x2000 <=? cp) && (cp <=? 0x200a) ||
   (cp =? 0x2028) || (cp =? 0x2029) || (cp =? 0x202f) ||
   (cp =? 0x205f) || (cp =? 0x3000))%N.

(** The zero of each run of ten decimal digits beyond ASCII. *)
Definition decimal_zeros : list N :=
  [ 0x660; 0x6f0; 0x7c0; 0x966; 0x9e6; 0xa66; 0xae6; 0xb66; 0xbe6; 0xc66;
    0xce6; 0xd66; 0xde6; 0xe50; 0xed0; 0xf20; 0x1040; 0x1090; 0x17e0; 0x1810;
    0x1946; 0x19d0; 0x1a80; 0x1a90; 0x1b50; 0x1bb0; 0x1c40; 0x1c50; 0xa620;
    0xa8d0; 0xa900; 0xa9d0; 0xa9f0; 0xaa50; 0xabf0; 0xff10; 0x104a0; 0x10d30;
    0x11066; 0x110f0; 0x11136; 0x111d0; 0x112f0; 0x11450; 0x114d0; 0x11650;
    0x116c0; 0x11730; 0x118e0; 0x11950; 0x11c50; 0x11d50; 0x11da0; 0x16a60;
    0x16ac0; 0x16b50; 0x1d7ce; 0x1d7d8; 0x1d7e2; 0x1d7ec; 0x1d7f6; 0x1e140;
    0x1e2f0; 0x1e950; 0x1fbf0 ]%N.

Definition decimal_digit (cp : N) : option N :=
  z ← find (fun z => (z <=? cp) && (cp <? z + 10))%N decimal_zeros;
  Some (cp - z)%N.

Definition to_ascii (cp : N) : option ascii :=
  if (cp <? 127)%N then Some (ascii_of_N cp)
  else if is_unicode_space cp then Some " "%char
  else d ← decimal_digit cp; Some (ascii_of_N (48 + d)).

(** The ASCII form of a text: itself when it is ASCII already. *)
Definition ascii_form (l : list ascii) : option (list ascii) :=
  if forallb (fun c => N_of_ascii c <? 128)%N l then Some l
  else utf8_decode l ≫= mapM to_ascii.

Definition is_digit (c : ascii) : bool :=
  let n := N_of_ascii c in ((48 <=? n) && (n <=? 57))%N.

Definition digit_val (c : ascii) : Z := Z.of_N (N_of_ascii c) - 48.

Definition lower (c : ascii) : ascii :=
  let n := N_of_ascii c in
  if ((65 <=? n) && (n <=? 90))%N then ascii_of_N (n + 32) else c.

Fixpoint lstrip (l : list ascii) : list ascii :=
  match l with
  | c :: r => if is_space c then lstrip r else l
  | [] => []
  end.

Definition strip (l : list ascii) : list ascii :=
  rev (lstrip (rev (lstrip l))).

(** Drops the underscores; [None] when one is not between two digits. *)
Fixpoint drop_underscores (prev_digit : bool) (l : list ascii) : option (list ascii) :=
  match l with
  | [] => Some []
  | c :: r =>
      if Ascii.eqb c "_" then
        match r with
        | d :: _ =>
            if prev_digit && is_digit d then drop_underscores false r else None
        | [] => None
        end
      else cons c <$> drop_underscores (is_digit c) r
  end.

(** The longest prefix of digits, and the rest. *)
Fixpoint span_digits (l : list ascii) : list ascii * list ascii :=
  match l with
  | c :: r =>
      if is_digit c then let '(ds, rest) := span_digits r in (c :: ds, rest)
      else ([], l)
  | [] => ([], [])
  end.

Definition digits_val (ds : list ascii) : Z :=
  fold_left (fun acc c => 10 * acc + digit_val c) ds 0.

Definition take_sign (l : list ascii) : bool * list ascii :=
  match l with
  | c :: r =>
      if Ascii.eqb c "-" then (true, r)
      else if Ascii.eqb c "+" then (false, r)
      else (false, l)
  | [] => (false, [])
  end.

(** The exponent part: nothing, or [e] or [E], an optional sign and at
    least one digit, up to the end of the text. *)
Definition parse_exponent (l : list ascii) : option Z :=
  match l with
  | [] => Some 0
  | c :: r =>
      if Ascii.eqb (lower c) "e" then
        let '(neg, r') := take_sign r in
        match span_digits r' with
        | (d :: ds, []) =>
            Some (if neg then - digits_val (d :: ds) else digits_val (d :: ds))
        | _ => None
        end
      else None
  end.

(** [m * 10 ^ e10], rounded to nearest even. *)
Definition decimal_to_float (neg : bool) (m : Z) (e10 : Z) : spec_float :=
  match m with
  | Zpos p =>
      if 0 <=? e10 then
        binary_round prec emax neg (Z.to_pos (Zpos p * 10 ^ e10)) 0
      else
        let '(q, e, l) := SFdiv_core_binary prec emax (Zpos p) 0 (10 ^ (- e10)) 0 in
        binary_round_aux prec emax neg q e l
  | _ => S754_zero neg
  end.

Definition parse_decimal (neg : bool) (l : list ascii) : option spec_float :=
  let '(ip, r1) := span_digits l in
  let '(fp, r2) :=
    match r1 with
    | c :: r => if Ascii.eqb c "." then span_digits r else ([], r1)
    | [] => ([], [])
    end in
  match ip ++ fp with
  | [] => None
  | ds =>
      e ← parse_exponent r2;
      Some (decimal_to_float neg (digits_val ds) (e - Z.of_nat (length fp)))
  end.

Definition float_of_ascii (l : list ascii) : option spec_float :=
  let '(neg, body) := take_sign (strip l) in
  let word := string_of_list_ascii (map lower body) in
  if String.eqb word "inf" || String.eqb word "infinity" then
    Some (S754_infinity neg)
  else if String.eqb word "nan" then Some S754_nan
  else drop_underscores false body ≫= parse_decimal neg.

Definition float_of_string (s : string) : option spec_float :=
  ascii_form (list_ascii_of_string s) ≫= float_of_ascii.

(** *** [float(v)] *)

(** An integer is rounded to nearest even; one beyond the binary64 range
    raises [OverflowError]. *)
Definition float_of_int (z : Z) : result spec_float :=
  match binary_normalize prec emax z 0 false with
  | S754_infinity _ => Err OverflowError
  | f => Ok f
  end.

(** A float literal of the program text. *)
Definition literal (s : string) : spec_float :=
  default S754_nan (float_of_string s).

Definition float (v : pyval) : result spec_float :=
  match v with
  | PyFloat f => Ok f
  | PyInt z => float_of_int z
  | PyBool b => Ok (if b then one else zero)
  | PyStr s =>
      match float_of_string s with
      | Some f => Ok f
      | None => Err ValueError
      end
  | PyNone | PyList _ | PyDict _ => Err TypeError
  end.

(** *** [s in v] for a string [s] *)

(** Is [sub] a prefix of [l], is it a contiguous part of [l]. *)
Fixpoint is_prefix (sub l : list ascii) : bool :=
  match sub, l with
  | [], _ => true
  | a :: sub', b :: l' => Ascii.eqb a b && is_prefix sub' l'
  | _ :: _, [] => false
  end.

Fixpoint is_infix (sub l : list ascii) : bool :=
  is_prefix sub l ||
  match l with
  | [] => false
  | _ :: l' => is_infix sub l'
  end.

(** [s == v] *)
Definition str_eq (s : string) (v : pyval) : bool :=
  match v with
  | PyStr s' => String.eqb s s'
  | _ => false
  end.

(** Membership in a list compares with [==], in a dict looks among the
    keys, in a string looks for a substring; the other values are not
    iterable. *)
Definition contains (v : pyval) (s : string) : result bool :=
  match v with
  | PyList l => Ok (existsb (str_eq s) l)
  | PyDict d => Ok (bool_decide (is_Some (d !! s)))
  | PyStr s' => Ok (is_infix (list_ascii_of_string s) (list_ascii_of_string s'))
  | PyNone | PyBool _ | PyInt _ | PyFloat _ => Err TypeError
  end.

End Py.

(** ** Object identifiers *)

(** An identifier is its [binary], a byte string: 12 bytes for one the
    store gave out.  [of_str] is [ObjectId(s)] for a string: the string has
    24 characters and [bytes.fromhex] takes it, which reads pairs of
    hexadecimal digits and skips ASCII white space between pairs; so the
    binary of an identifier made from a string may be shorter than 12
    bytes.  [to_str] is [str(oid)], the binary in hexadecimal. *)
Module ObjectId.

Definition t := string.

Definition hex_val (c : ascii) : option N :=
  let n := N_of_ascii c in
  if ((48 <=? n) && (n <=? 57))%N then Some (n - 48)%N
  else if ((97 <=? n) && (n <=? 102))%N then Some (n - 87)%N
  else if ((65 <=? n) && (n <=? 70))%N then Some (n - 55)%N
  else None.

(** [bytes.fromhex] *)
Fixpoint fromhex (l : list ascii) : option (list ascii) :=
  match l with
  | [] => Some []
  | c :: r =>
      if Py.is_space c then fromhex r
      else
        match hex_val c, r with
        | Some top, c' :: r' =>
            match hex_val c' with
            | Some bot => cons (ascii_of_N (16 * top + bot)) <$> fromhex r'
            | None => None
            end
        | _, _ => None
        end
  end.

Definition of_str (s : string) : option t :=
  if Nat.eqb (String.length s) 24 then
    string_of_list_ascii <$> fromhex (list_ascii_of_string s)
  else None.

Definition hex_digit (d : N) : ascii :=
  if (d <? 10)%N then ascii_of_N (48 + d) else ascii_of_N (87 + d).

Fixpoint hexlify (l : list ascii) : list ascii :=
  match l with
  | [] => []
  | c :: r =>
      let n := N_of_ascii c in
      hex_digit (n / 16)%N :: hex_digit (n mod 16)%N :: hexlify r
  end.

Definition to_str (oid : t) : string :=
  string_of_list_ascii (hexlify (list_ascii_of_string oid)).

(** The big-endian bytes of a number. *)
Fixpoint to_bytes (count : nat) (n : N) (acc : list ascii) : list ascii :=
  match count with
  | O => acc
  | S k => to_bytes k (n / 256)%N (ascii_of_N (n mod 256)%N :: acc)
  end.

(** The 12-byte identifier that stands for the number [n]: the store
    gives out identifiers by number. *)
Definition generate (n : N) : t := string_of_list_ascii (to_bytes 12 n []).

(** [ObjectId(v)] *)
Definition new (v : pyval) : result t :=
  match v with
  | PyStr s =>
      match of_str s with
      | Some oid => Ok oid
      | None => Err InvalidId
      end
  | _ => Err TypeError
  end.

(** [ObjectId.is_valid(v)]: false on a false value and on whatever
    [ObjectId(v)] rejects. *)
Definition is_valid (v : pyval) : bool :=
  Py.truthy v &&
  match new v with
  | Ok _ => true
  | Err _ => false
  end.

End ObjectId.

(** ** The document store *)

(** A stored document: the identifier the store gave it under [_id], and
    its other fields.  [fields] never holds the key [_id]. *)
Record document := {
  _id : ObjectId.t;
  fields : gmap string pyval
}.

(** Modelled from the spec: the database handle of [database.py], which is
    not among the sources.  A handle holds the named collections, each in
    insertion order, and the number of the next identifier to give out;
    [fault] is the failure every call to the store raises while the store
    cannot be reached. *)
Record Database := {
  name : string;
  fault : option string;
  collections : gmap string (list document);
  counter : N
}.

(** The identifier the store gives to the next document. *)
Definition next_id (d : Database) : ObjectId.t := ObjectId.generate (counter d).

Definition collection (d : Database) (coll : string) : list document :=
  default [] (collections d !! coll).

(** The store after one insert: the document goes last in its collection,
    under the next identifier. *)
Definition insert_one (d : Database) (coll : string) (data : gmap string pyval) : Database :=
  {| name := name d;
     fault := fault d;
     collections :=
       <[coll := collection d coll ++ [ {| _id := next_id d; fields := data |} ]]> (collections d);
     counter := N.succ (counter d) |}.

(** The first document of a collection with a given identifier. *)
Definition find_by_id (l : list document) (oid : ObjectId.t) : option document :=
  find (fun doc => String.eqb (_id doc) oid) l.

(** Handlers run in a state and exception monad; the state is the module
    global [db], which is [None] when no database is configured.  A raised
    exception keeps the state reached so far. *)
Definition M (A : Type) : Type := option Database → result A * option Database.

#[global] Instance M_ret : MRet M := fun A a s => (Ok a, s).
#[global] Instance M_bind : MBind M := fun A B f m s =>
  match m s with
  | (Ok a, s') => f a s'
  | (Err e, s') => (Err e, s')
  end.

Definition raise {A} (e : exn) : M A := fun s => (Err e, s).

Definition lift {A} (r : result A) : M A := fun s => (r, s).

(** [try: body except Exception as e: handler e] *)
Definition try_except {A} (body : M A) (handler : exn → M A) : M A := fun s =>
  match body s with
  | (Ok a, s') => (Ok a, s')
  | (Err e, s') => handler e s'
  end.

(** A [for] loop that appends one result per item. *)
Fixpoint for_each {A B} (f : A → M B) (l : list A) : M (list B) :=
  match l with
  | [] => mret []
  | a :: r => b ← f a; bs ← for_each f r; mret (b :: bs)
  end.

Definition not_available : exn := StoreError "Database not available".

(** Modelled from the spec: [get_documents] of [database.py], the gateway's
    fetch-all, in the store's iteration order. *)
Definition get_documents (coll : string) : M (list document) := fun s =>
  match s with
  | None => (Err not_available, s)
  | Some d =>
      match fault d with
      | Some why => (Err (StoreError why), s)
      | None => (Ok (collection d coll), s)
      end
  end.

(** Modelled from the spec: [create_document] of [database.py], the
    gateway's insert-one; it returns the new identifier as text. *)
Definition create_document (coll : string) (data : gmap string pyval) : M string := fun s =>
  match s with
  | None => (Err not_available, s)
  | Some d =>
      match fault d with
      | Some why => (Err (StoreError why), s)
      | None => (Ok (ObjectId.to_str (next_id d)), Some (insert_one d coll data))
      end
  end.

(** [db[coll].find_one({"_id": oid})]; subscripting [None] is a [TypeError]. *)
Definition find_one (coll : string) (oid : ObjectId.t) : M (option document) := fun s =>
  match s with
  | None => (Err TypeError, s)
  | Some d =>
      match fault d with
      | Some why => (Err (StoreError why), s)
      | None => (Ok (find_by_id (collection d coll) oid), s)
      end
  end.

(** [db[coll].count_documents({})] *)
Definition count_documents (coll : string) : M Z := fun s =>
  match s with
  | None => (Err TypeError, s)
  | Some d =>
      match fault d with
      | Some why => (Err (StoreError why), s)
      | None => (Ok (Z.of_nat (length (collection d coll))), s)
      end
  end.

(** [db.list_collection_names()] *)
Definition list_collection_names : M (list string) := fun s =>
  match s with
  | None => (Err TypeError, s)
  | Some d =>
      match fault d with
      | Some why => (Err (StoreError why), s)
      | None => (Ok (map fst (map_to_list (collections d))), s)
      end
  end.

(** ** Schemas *)

Module schemas.

Record Product := {
  title : string;
  description : option string;
  price : spec_float;
  category : string;
  in_stock : bool;
  sizes : list string;
  image : option string
}.

Definition as_str (v : pyval) : result string :=
  match v with
  | PyStr s => Ok s
  | _ => Err ValidationError
  end.

Definition as_optional_str (v : pyval) : result (option string) :=
  match v with
  | PyNone => Ok None
  | PyStr s => Ok (Some s)
  | _ => Err ValidationError
  end.

Fixpoint as_str_list_items (l : list pyval) : result (list string) :=
  match l with
  | [] => Ok []
  | v :: r => s ← as_str v; ss ← as_str_list_items r; Ok (s :: ss)
  end.

Definition as_str_list (v : pyval) : result (list string) :=
  match v with
  | PyList l => as_str_list_items l
  | _ => Err ValidationError
  end.

Definition as_price (f : spec_float) : result spec_float :=
  if SFleb Py.zero f then Ok f else Err ValidationError.

(** Modelled from the spec: the [Product] model of [schemas.py], which is
    not among the sources.  The spec gives title and category as text,
    description and image as optional text, price as a non-negative
    decimal, in_stock as a boolean and sizes as a sequence of size
    labels.  A value of another type is a validation error here; no
    conversion between types is modelled. *)
Definition new (title description : pyval) (price : spec_float)
    (category : pyval) (in_stock : bool) (sizes image : pyval) : result Product :=
  t ← as_str title;
  d ← as_optional_str description;
  p ← as_price price;
  c ← as_str category;
  z ← as_str_list sizes;
  i ← as_optional_str image;
  Ok {| title := t; description := d; price := p; category := c;
        in_stock := in_stock; sizes := z; image := i |}.

End schemas.

(** ** The handlers of [main.py] *)

Definition doc_get (it : document) (k : string) : pyval := Py.get (fields it) k.
Definition doc_get_or (it : document) (k : string) (dflt : pyval) : pyval :=
  Py.get_or (fields it) k dflt.

Definition DEFAULT_SIZES : pyval :=
  PyList [PyStr "XS"; PyStr "S"; PyStr "M"; PyStr "L"; PyStr "XL"].

Definition internal_error {A} (e : exn) : M A :=
  raise (HTTPException 500 (StrOf e)).

(** The body of the loop of [list_products]: the public form of a stored
    product. *)
Definition normalize_product (it : document) : result schemas.Product :=
  price ← Py.float (doc_get_or it "price" (PyInt 0));
  schemas.new
    (doc_get_or it "title" (PyStr "Untitled"))
    (doc_get it "description")
    price
    (doc_get_or it "category" (PyStr "apparel"))
    (Py.truthy (doc_get_or it "in_stock" (PyBool true)))
    (Py.or_ (doc_get it "sizes") DEFAULT_SIZES)
    (doc_get it "image").

Definition list_products : M (list schemas.Product) :=
  try_except
    (items ← get_documents "product";
     for_each (fun it => lift (normalize_product it)) items)
    internal_error.

(** The body of the loop of [list_products_full]: the full form, a dict. *)
Definition normalize_product_full (it : document) : result (gmap string pyval) :=
  price ← Py.float (doc_get_or it "price" (PyInt 0));
  Ok (<["_id" := PyStr (ObjectId.to_str (_id it))]>
      (<["title" := doc_get it "title"]>
      (<["description" := doc_get it "description"]>
      (<["price" := PyFloat price]>
      (<["category" := doc_get it "category"]>
      (<["in_stock" := PyBool (Py.truthy (doc_get_or it "in_stock" (PyBool true)))]>
      (<["sizes" := Py.or_ (doc_get it "sizes") DEFAULT_SIZES]>
      (<["image" := doc_get it "image"]> ∅)))))))).

Definition list_products_full : M (list (gmap string pyval)) :=
  try_except
    (items ← get_documents "product";
     for_each (fun it => lift (normalize_product_full it)) items)
    internal_error.

Record AddToCartRequest := {
  product_id : string;
  size : string;
  quantity : Z
}.

(** Validation of a request body against [AddToCartRequest]: two required
    strings and an integer that is 1 when left out.  No conversion between
    types is modelled. *)
Definition parse_AddToCartRequest (body : gmap string pyval) : result AddToCartRequest :=
  match body !! "product_id", body !! "size", Py.get_or body "quantity" (PyInt 1) with
  | Some (PyStr p), Some (PyStr s), PyInt q =>
      Ok {| product_id := p; size := s; quantity := q |}
  | _, _, _ => Err ValidationError
  end.

Definition cart_item (body : AddToCartRequest) : gmap string pyval :=
  <["product_id" := PyStr (product_id body)]>
  (<["size" := PyStr (size body)]>
  (<["quantity" := PyInt (quantity body)]> ∅)).

Definition add_to_cart (body : AddToCartRequest) : M (gmap string pyval) :=
  if negb (ObjectId.is_valid (PyStr (product_id body))) then
    raise (HTTPException 400 (Lit "Invalid product id"))
  else
    oid ← lift (ObjectId.new (PyStr (product_id body)));
    prod ← find_one "product" oid;
    match prod with
    | None => raise (HTTPException 404 (Lit "Product not found"))
    | Some prod =>
        offered ← lift (Py.contains (Py.or_ (doc_get prod "sizes") DEFAULT_SIZES) (size body));
        if negb offered then
          raise (HTTPException 400 (Lit "Invalid size for this product"))
        else
          try_except
            (cid ← create_document "cartitem" (cart_item body);
             mret (<["id" := PyStr cid]> (<["message" := PyStr "Added to cart"]> ∅)))
            internal_error
    end.

(** The product a cart item points at: looked up only when [product_id]
    is a valid identifier. *)
Definition resolve_product (pid : pyval) : M (option document) :=
  if ObjectId.is_valid pid then
    oid ← lift (ObjectId.new pid);
    find_one "product" oid
  else mret None.

(** The body of the loop of [get_cart]. *)
Definition enrich (it : document) : M (gmap string pyval) :=
  let pid := doc_get_or it "product_id" (PyStr "") in
  prod ← resolve_product pid;
  price ← match prod with
          | Some p => lift (f ← Py.float (doc_get_or p "price" (PyInt 0)); Ok (PyFloat f))
          | None => mret (PyInt 0)
          end;
  mret (<["id" := PyStr (ObjectId.to_str (_id it))]>
       (<["product_id" := pid]>
       (<["size" := doc_get it "size"]>
       (<["quantity" := doc_get_or it "quantity" (PyInt 1)]>
       (<["title" := match prod with Some p => doc_get p "title" | None => PyNone end]>
       (<["price" := price]>
       (<["image" := match prod with Some p => doc_get p "image" | None => PyNone end]>
        ∅))))))).

Definition get_cart : M (gmap string pyval) :=
  try_except
    (items ← get_documents "cartitem";
     enriched ← for_each enrich items;
     mret {[ "items" := PyList (PyDict <$> enriched) ]})
    internal_error.

(** The module global [db]. *)
Definition get_db : M (option Database) := fun s => (Ok s, s).

Definition nebula_sheen_hoodie : gmap string pyval :=
  <["title" := PyStr "Nebula Sheen Hoodie"]>
  (<["description" := PyStr "Gloss vinyl sheen with soft-core cotton. Y2K gradients, reflective piping."]>
  (<["price" := PyFloat (Py.literal "89.0")]>
  (<["category" := PyStr "hoodies"]>
  (<["in_stock" := PyBool true]>
  (<["sizes" := PyList [PyStr "S"; PyStr "M"; PyStr "L"; PyStr "XL"]]>
  (<["image" := PyStr "https://images.unsplash.com/photo-1520975916090-3105956dac38?q=80&w=1600&auto=format&fit=crop"]>
   ∅)))))).

Definition chrome_ripple_tee : gmap string pyval :=
  <["title" := PyStr "Chrome Ripple Tee"]>
  (<["description" := PyStr "Liquid chrome graphic, oversized cut. Opium club energy."]>
  (<["price" := PyFloat (Py.literal "45.0")]>
  (<["category" := PyStr "tshirts"]>
  (<["in_stock" := PyBool true]>
  (<["sizes" := PyList [PyStr "XS"; PyStr "S"; PyStr "M"; PyStr "L"]]>
  (<["image" := PyStr "https://images.unsplash.com/photo-1490481651871-ab68de25d43d?q=80&w=1600&auto=format&fit=crop"]>
   ∅)))))).

Definition ultra_violet_cargo : gmap string pyval :=
  <["title" := PyStr "Ultra Violet Cargo"]>
  (<["description" := PyStr "Parachute cargos with iridescent straps and cinch toggles."]>
  (<["price" := PyFloat (Py.literal "110.0")]>
  (<["category" := PyStr "pants"]>
  (<["in_stock" := PyBool true]>
  (<["sizes" := PyList [PyStr "S"; PyStr "M"; PyStr "L"]]>
  (<["image" := PyStr "https://images.unsplash.com/photo-1532890162909-9f2bff5f7c1a?q=80&w=1600&auto=format&fit=crop"]>
   ∅)))))).

(** The [products] of [seed_products]. *)
Definition seed_catalog : list (gmap string pyval) :=
  [nebula_sheen_hoodie; chrome_ripple_tee; ultra_violet_cargo].

(** The truth value of [db]: [None] is false, and a database handle has
    none; asking for it raises [NotImplementedError] (pymongo 4), which is
    why [test_database] compares with [None] instead. *)
Definition db_truth : M bool := fun s =>
  match s with
  | None => (Ok false, s)
  | Some _ => (Err NotImplementedError, s)
  end.

Definition seed_products : M (gmap string pyval) :=
  try_except
    (db ← db_truth;
     count ← (if db : bool then count_documents "product" else mret 0);
     if 0 <? count then
       mret (<["seeded" := PyBool false]>
            (<["message" := PyStr "Products already exist"]> ∅))
     else
       let products := seed_catalog in
       _ ← for_each (create_document "product") products;
       mret (<["seeded" := PyBool true]>
            (<["count" := PyInt (Z.of_nat (length products))]> ∅)))
    internal_error.

(** The values of the diagnostic response: [None], a text, or a list of
    collection names. *)
Inductive diag :=
  | DNone
  | DText (t : text)
  | DNames (l : list string).

(** [os.getenv(k)] as a condition: set, and not to the empty string. *)
Definition env_set (env : gmap string string) (k : string) : bool :=
  match env !! k with
  | Some v => negb (String.eqb v "")
  | None => false
  end.

(** [test_database].  A handle always has the attribute [name].  No
    statement of the outer [try] can raise outside the inner one, so its
    handler finds the response as it was set up. *)
Definition test_database (env : gmap string string) : M (gmap string diag) :=
  let response : gmap string diag :=
    <["backend" := DText (Lit "✅ Running")]>
    (<["database" := DText (Lit "❌ Not Available")]>
    (<["database_url" := DNone]>
    (<["database_name" := DNone]>
    (<["connection_status" := DText (Lit "Not Connected")]>
    (<["collections" := DNames []]> ∅))))) in
  response ←
    try_except
      (d ← get_db;
       match d with
       | Some d =>
           let response :=
             <["connection_status" := DText (Lit "Connected")]>
             (<["database_name" := DText (Lit (name d))]>
             (<["database_url" := DText (Lit "✅ Configured")]>
             (<["database" := DText (Lit "✅ Available")]> response))) in
           try_except
             (collections ← list_collection_names;
              mret (<["database" := DText (Lit "✅ Connected & Working")]>
                   (<["collections" := DNames (take 10 collections)]> response)))
             (fun e =>
                mret (<["database" :=
                         DText (Cat (Lit "⚠️  Connected but Error: ") (Slice (StrOf e) 50))]>
                      response))
       | None =>
           mret (<["database" := DText (Lit "⚠️  Available but not initialized")]> response)
       end)
      (fun e =>
         mret (<["database" := DText (Cat (Lit "❌ Error: ") (Slice (StrOf e) 50))]> response));
  let response :=
    <["database_url" :=
       DText (Lit (if env_set env "DATABASE_URL" then "✅ Set" else "❌ Not Set"))]> response in
  let response :=
    <["database_name" :=
       DText (Lit (if env_set env "DATABASE_NAME" then "✅ Set" else "❌ Not Set"))]> response in
  mret response.

(** [product.dict()]: the fields of a validated product, as stored. *)
Definition optional_str (o : option string) : pyval :=
  match o with
  | Some s => PyStr s
  | None => PyNone
  end.

Definition product_dict (p : schemas.Product) : gmap string pyval :=
  <["title" := PyStr (schemas.title p)]>
  (<["description" := optional_str (schemas.description p)]>
  (<["price" := PyFloat (schemas.price p)]>
  (<["category" := PyStr (schemas.category p)]>
  (<["in_stock" := PyBool (schemas.in_stock p)]>
  (<["sizes" := PyList (PyStr <$> schemas.sizes p)]>
  (<["image" := optional_str (schemas.image p)]> ∅)))))).

Definition create_product (product : schemas.Product) : M (gmap string pyval) :=
  try_except
    (let doc := product_dict product in
     new_id ← create_document "product" doc;
     mret (<["id" := PyStr new_id]> (<["message" := PyStr "Product created"]> ∅)))
    internal_error.

(** * Vocabulary of the properties, and example data *)

(** A well-formed identifier: 24 hexadecimal digits. *)
Definition hex24 (s : string) : Prop :=
  String.length s = 24%nat ∧
  Forall (fun c => is_Some (ObjectId.hex_val c)) (list_ascii_of_string s).

(** Pairs of hexadecimal digits, with ASCII white space allowed before
    each pair and at the end. *)
Inductive hex_pairs : list ascii → Prop :=
  | hex_pairs_nil : hex_pairs []
  | hex_pairs_space c r :
      Py.is_space c = true → hex_pairs r → hex_pairs (c :: r)
  | hex_pairs_pair a b r :
      is_Some (ObjectId.hex_val a) → is_Some (ObjectId.hex_val b) →
      hex_pairs r → hex_pairs (a :: b :: r).

(** The strings [ObjectId] takes: 24 characters that are pairs of
    hexadecimal digits and white space between pairs. *)
Definition well_formed (s : string) : Prop :=
  String.length s = 24%nat ∧ hex_pairs (list_ascii_of_string s).

(** The sizes a product offers: its stored [sizes], or the default list
    when that is missing or false. *)
Definition offered_sizes (prod : document) : pyval :=
  Py.or_ (doc_get prod "sizes") DEFAULT_SIZES.

Definition added (cid : string) : gmap string pyval :=
  <["id" := PyStr cid]> (<["message" := PyStr "Added to cart"]> ∅).

(** The request used in the examples, the product it names and a store
    that holds it. *)
Definition demo_product : document :=
  {| _id := ObjectId.generate 7;
     fields := <["title" := PyStr "Tee"]>
               (<["price" := PyInt (-5)]>
               (<["sizes" := PyList [PyStr "S"; PyStr "M"]]> ∅)) |}.

Definition demo_store : Database :=
  {| name := "swag";
     fault := None;
     collections := {[ "product" := [demo_product] ]};
     counter := 8%N |}.

Definition demo_request (sz : string) (q : Z) : AddToCartRequest :=
  {| product_id := "000000000000000000000007"; size := sz; quantity := q |}.

(** A non-negative real number: a non-negative integer, or a float that is
    a zero or positive and finite. *)
Definition nonneg_real (v : pyval) : bool :=
  match v with
  | PyInt z => 0 <=? z
  | PyFloat (S754_zero _) => true
  | PyFloat (S754_finite s _ _) => negb s
  | _ => false
  end.

(** A stored price that is a non-negative number. *)
Definition nonneg_number (v : pyval) : Prop :=
  match v with
  | PyInt z => 0 ≤ z
  | PyFloat f => nonneg_real (PyFloat f) = true
  | _ => False
  end.

(** The view [get_cart] builds of a cart item, given the product found for
    it and the price computed from that product. *)
Definition cart_view (it : document) (prod : option document) (price : pyval) : gmap string pyval :=
  <["id" := PyStr (ObjectId.to_str (_id it))]>
  (<["product_id" := doc_get_or it "product_id" (PyStr "")]>
  (<["size" := doc_get it "size"]>
  (<["quantity" := doc_get_or it "quantity" (PyInt 1)]>
  (<["title" := match prod with Some p => doc_get p "title" | None => PyNone end]>
  (<["price" := price]>
  (<["image" := match prod with Some p => doc_get p "image" | None => PyNone end]>
   ∅)))))).

(** The product of a cart item does not resolve: its [product_id] is not a
    valid identifier, or no stored product has it. *)
Definition unresolved (s : option Database) (pid : pyval) : Prop :=
  ObjectId.is_valid pid = false ∨
  ∃ d str oid,
    s = Some d ∧ fault d = None ∧ pid = PyStr str ∧
    ObjectId.of_str str = Some oid ∧
    ∀ doc, In doc (collection d "product") → _id doc ≠ oid.

(** A cart item that points at a product the store does not hold. *)
Definition dangling_item : document :=
  {| _id := ObjectId.generate 9;
     fields := <["product_id" := PyStr "0000000000000000000000ff"]>
               (<["size" := PyStr "M"]> (<["quantity" := PyInt 3]> ∅)) |}.

(** The store of the examples with one item in the cart, for the product
    whose stored price is -5. *)
Definition demo_cart_store : Database :=
  insert_one demo_store "cartitem" (cart_item (demo_request "S" 2)).

(** A request body with its two strings and, when given, a quantity. *)
Definition request_body (p s : string) (q : option Z) : gmap string pyval :=
  let base := <["product_id" := PyStr p]> (<["size" := PyStr s]> ∅) in
  match q with
  | Some q => <["quantity" := PyInt q]> base
  | None => base
  end.

Definition presence (env : gmap string string) (k : string) : diag :=
  DText (Lit (if env_set env k then "✅ Set" else "❌ Not Set")).

Definition demo_env (url dbname : string) : gmap string string :=
  <["DATABASE_URL" := url]> (<["DATABASE_NAME" := dbname]> ∅).

Definition empty_store : Database :=
  {| name := "swag"; fault := None; collections := ∅; counter := 1%N |}.

Definition is_str (v : pyval) : bool :=
  match v with
  | PyStr _ => true
  | _ => false
  end.

Definition is_optional_str (v : pyval) : bool :=
  match v with
  | PyNone | PyStr _ => true
  | _ => false
  end.

(** The fields of a stored product that the public form reads are each
    missing or of the type the schema gives them: title and category are
    strings; description and image are strings or null; price converts by
    [float] to a number that is not below zero; sizes is false or a list
    of strings.  Other fields may hold anything. *)
Definition conforms (it : document) : bool :=
  is_str (doc_get_or it "title" (PyStr "Untitled")) &&
  is_optional_str (doc_get it "description") &&
  match Py.float (doc_get_or it "price" (PyInt 0)) with
  | Ok f => SFleb Py.zero f
  | Err _ => false
  end &&
  is_str (doc_get_or it "category" (PyStr "apparel")) &&
  match Py.or_ (doc_get it "sizes") DEFAULT_SIZES with
  | PyList l => forallb is_str l
  | _ => false
  end &&
  is_optional_str (doc_get it "image").

(** What the public form of a conforming document holds: the stored
    fields, with each missing one replaced by its default. *)
Definition public_form (it : document) (p : schemas.Product) : Prop :=
  doc_get_or it "title" (PyStr "Untitled") = PyStr (schemas.title p) ∧
  Py.float (doc_get_or it "price" (PyInt 0)) = Ok (schemas.price p) ∧
  doc_get_or it "category" (PyStr "apparel") = PyStr (schemas.category p) ∧
  schemas.in_stock p = Py.truthy (doc_get_or it "in_stock" (PyBool true)) ∧
  Py.or_ (doc_get it "sizes") DEFAULT_SIZES = PyList (PyStr <$> schemas.sizes p) ∧
  (fields it !! "description" = None → schemas.description p = None) ∧
  (fields it !! "image" = None → schemas.image p = None).

Definition default_size_labels : list string := ["XS"; "S"; "M"; "L"; "XL"].

(** Each field that has a default gets it when the stored document lacks
    the field. *)
Definition defaults_applied (it : document) (p : schemas.Product) : Prop :=
  (fields it !! "title" = None → schemas.title p = "Untitled") ∧
  (fields it !! "price" = None → schemas.price p = Py.zero) ∧
  (fields it !! "category" = None → schemas.category p = "apparel") ∧
  (fields it !! "in_stock" = None → schemas.in_stock p = true) ∧
  (fields it !! "sizes" = None → schemas.sizes p = default_size_labels).

(** A product stored with a null price, and a store that holds it. *)
Definition null_price_product : document :=
  {| _id := ObjectId.generate 1;
     fields := <["title" := PyStr "Cap"]> (<["price" := PyNone]> ∅) |}.

Definition store_of (products : list document) : Database :=
  {| name := "swag";
     fault := None;
     collections := {[ "product" := products ]};
     counter := 100%N |}.

(** A product stored with nothing but extra fields. *)
Definition bare_product : document :=
  {| _id := ObjectId.generate 2; fields := <["colour" := PyStr "chrome"]> (<["stock" := PyInt 4]> ∅) |}.

(** The example of the spec, as stored and as it should come out. *)
Definition tee_fields (price : option pyval) : gmap string pyval :=
  let base := <["title" := PyStr "Tee"]> (<["sizes" := PyList []]> ∅) in
  match price with
  | Some v => <["price" := v]> base
  | None => base
  end.

Definition tee_public : schemas.Product :=
  {| schemas.title := "Tee";
     schemas.description := None;
     schemas.price := Py.zero;
     schemas.category := "apparel";
     schemas.in_stock := true;
     schemas.sizes := default_size_labels;
     schemas.image := None |}.

Definition tee (price : option pyval) : document :=
  {| _id := ObjectId.generate 3; fields := tee_fields price |}.

(** A product stored with a size list and a price that is no number. *)
Definition sized_bad_price_product : document :=
  {| _id := ObjectId.generate 4;
     fields := <["sizes" := PyList [PyStr "S"]]> (<["price" := PyStr "bad"]> ∅) |}.

(** A product stored with two sizes and nothing else. *)
Definition two_sizes_product : document :=
  {| _id := ObjectId.generate 5; fields := <["sizes" := PyList [PyStr "L"; PyStr "S"]]> ∅ |}.

(** A loop in the exception monad alone: the results in order, or the
    first error. *)
Fixpoint traverse {A B} (f : A → result B) (l : list A) : result (list B) :=
  match l with
  | [] => Ok []
  | a :: r => b ← f a; bs ← traverse f r; Ok (b :: bs)
  end.

(** What an [except Exception] clause of the handlers makes of a result. *)
Definition wrap_500 {A} (r : result A) : result A :=
  match r with
  | Ok a => Ok a
  | Err e => Err (HTTPException 500 (StrOf e))
  end.

Definition stored_price (p : document) : pyval := doc_get_or p "price" (PyInt 0).

(** [float] accepts the stored price of a product, or its default. *)
Definition price_converts (p : document) : Prop :=
  ∃ f, Py.float (stored_price p) = Ok f.

(** The product a cart item names, among the stored products. *)
Definition product_of (products : list document) (it : document) : option document :=
  match doc_get_or it "product_id" (PyStr "") with
  | PyStr str =>
      match ObjectId.of_str str with
      | Some oid => find_by_id products oid
      | None => None
      end
  | _ => None
  end.

(** The view of a cart item over a working store, as a function of the
    stored products. *)
Definition view_of (products : list document) (it : document) : result (gmap string pyval) :=
  match product_of products it with
  | Some p => f ← Py.float (stored_price p); Ok (cart_view it (Some p) (PyFloat f))
  | None => Ok (cart_view it None (PyInt 0))
  end.

(** A view carries the identifier and the own fields of its cart item,
    and the title, image and converted price of the product the item
    names, when there is one. *)
Definition item_view (products : list document) (it : document) (v : gmap string pyval) : Prop :=
  v !! "id" = Some (PyStr (ObjectId.to_str (_id it))) ∧
  v !! "product_id" = Some (doc_get_or it "product_id" (PyStr "")) ∧
  v !! "size" = Some (doc_get it "size") ∧
  v !! "quantity" = Some (doc_get_or it "quantity" (PyInt 1)) ∧
  ∀ p, product_of products it = Some p →
    v !! "title" = Some (doc_get p "title") ∧
    v !! "image" = Some (doc_get p "image") ∧
    ∃ f, Py.float (stored_price p) = Ok f ∧ v !! "price" = Some (PyFloat f).

Definition cart_response (views : list (gmap string pyval)) : gmap string pyval :=
  {[ "items" := PyList (PyDict <$> views) ]}.

(** [float] converts the stored price of every product, or its default,
    to a non-negative real number. *)
Definition prices_nonneg (d : Database) : Prop :=
  ∀ p, In p (collection d "product") →
    ∃ f, Py.float (stored_price p) = Ok f ∧ nonneg_real (PyFloat f) = true.

(** The price of the view of a cart item: 0 when the item names no stored
    product, else the stored price of the product as [float] converts it;
    and a non-negative real number. *)
Definition price_ok (d : Database) (it : document) (view : gmap string pyval) : Prop :=
  match product_of (collection d "product") it with
  | None => view !! "price" = Some (PyInt 0)
  | Some p => ∃ f, Py.float (stored_price p) = Ok f ∧ view !! "price" = Some (PyFloat f)
  end ∧
  ∃ v, view !! "price" = Some v ∧ nonneg_real v = true.

(** A store with a product priced by a numeric string, and a cart with an
    item that names it and one that names nothing stored. *)
Definition priced_tee : document :=
  {| _id := ObjectId.generate 7;
     fields := <["title" := PyStr "Tee"]>
               (<["price" := PyStr "12.5"]>
               (<["image" := PyStr "tee.png"]> ∅)) |}.

Definition tee_item : document :=
  {| _id := ObjectId.generate 8;
     fields := <["product_id" := PyStr "000000000000000000000007"]>
               (<["size" := PyStr "L"]> ∅) |}.

Definition stocked_store : Database :=
  {| name := "swag";
     fault := None;
     collections :=
       {[ "product" := [priced_tee]; "cartitem" := [tee_item; dangling_item] ]};
     counter := 10%N |}.

(** An entry of the full listing carries the identifier of its document
    as text and the stored fields: title, description, category and image
    as stored or null, the price converted, in_stock as a truth value, and
    the sizes or their default. *)
Definition full_entry (it : document) (out : gmap string pyval) : Prop :=
  out !! "_id" = Some (PyStr (ObjectId.to_str (_id it))) ∧
  out !! "title" = Some (doc_get it "title") ∧
  out !! "description" = Some (doc_get it "description") ∧
  (∃ f, Py.float (stored_price it) = Ok f ∧ out !! "price" = Some (PyFloat f)) ∧
  out !! "category" = Some (doc_get it "category") ∧
  out !! "in_stock" = Some (PyBool (Py.truthy (doc_get_or it "in_stock" (PyBool true)))) ∧
  out !! "sizes" = Some (offered_sizes it) ∧
  out !! "image" = Some (doc_get it "image") ∧
  ∀ k, is_Some (out !! k) →
       In k ["_id"; "title"; "description"; "price"; "category"; "in_stock"; "sizes"; "image"].

(** The product as [list_products] reads it back after [create_product]:
    an empty size list comes back as the default one. *)
Definition read_back (p : schemas.Product) : schemas.Product :=
  {| schemas.title := schemas.title p;
     schemas.description := schemas.description p;
     schemas.price := schemas.price p;
     schemas.category := schemas.category p;
     schemas.in_stock := schemas.in_stock p;
     schemas.sizes :=
       match schemas.sizes p with
       | [] => default_size_labels
       | _ => schemas.sizes p
       end;
     schemas.image := schemas.image p |}.

Definition created (new_id : string) : gmap string pyval :=
  <["id" := PyStr new_id]> (<["message" := PyStr "Product created"]> ∅).

(** The same handle under another name. *)
Definition rename (d : Database) (n : string) : Database :=
  {| name := n; fault := fault d; collections := collections d; counter := counter d |}.

(** A product whose stored price is no number, and a store that holds it
    together with a cart item that names it. *)
Definition unpriced_product : document :=
  {| _id := ObjectId.generate 7; fields := <["title" := PyStr "Tee"]> (<["price" := PyStr "ask"]> ∅) |}.

Definition poisoned_item : document :=
  {| _id := ObjectId.generate 9;
     fields := <["product_id" := PyStr "000000000000000000000007"]>
               (<["size" := PyStr "M"]> ∅) |}.

Definition poisoned_store : Database :=
  {| name := "swag";
     fault := None;
     collections := {[ "product" := [unpriced_product]; "cartitem" := [poisoned_item] ]};
     counter := 10%N |}.

(** A store that cannot be reached. *)
Definition faulty_store : Database :=
  {| name := "swag"; fault := Some "timed out"; collections := ∅; counter := 1%N |}.

(** A product whose stored sizes is a boolean. *)
Definition flagged_sizes_product : document :=
  {| _id := ObjectId.generate 7; fields := <["sizes" := PyBool true]> ∅ |}.

(** A product whose stored sizes is a number. *)
Definition odd_sizes_product : document :=
  {| _id := ObjectId.generate 7; fields := <["sizes" := PyInt 3]> ∅ |}.

Definition cap : schemas.Product :=
  {| schemas.title := "Cap";
     schemas.description := None;
     schemas.price := Py.literal "12.5";
     schemas.category := "hats";
     schemas.in_stock := true;
     schemas.sizes := [];
     schemas.image := None |}.

(** A handler answered, or failed with the status 500. *)
Definition ok_or_500 {A} (r : result A) : Prop :=
  (∃ a, r = Ok a) ∨ (∃ e, r = Err (HTTPException 500 (StrOf e))).

(** * Properties *)

(** ** The monad *)

Section Monad.
Context {A B : Type}.

Lemma bind_ok (m : M A) (f : A → M B) s a s' :
  m s = (Ok a, s') → (m ≫= f) s = f a s'.
Proof. intros H. unfold mbind, M_bind. now rewrite H. Qed.

Lemma bind_err (m : M A) (f : A → M B) s e s' :
  m s = (Err e, s') → (m ≫= f) s = (Err e, s').
Proof. intros H. unfold mbind, M_bind. now rewrite H. Qed.

Lemma try_ok (m : M A) h s a s' :
  m s = (Ok a, s') → try_except m h s = (Ok a, s').
Proof. intros H. unfold try_except. now rewrite H. Qed.

Lemma try_err (m : M A) h s e s' :
  m s = (Err e, s') → try_except m h s = h e s'.
Proof. intros H. unfold try_except. now rewrite H. Qed.

End Monad.

(** ** Identifiers *)

Lemma hex_val_not_space c : is_Some (ObjectId.hex_val c) → Py.is_space c = false.
Proof.
  destruct c as [[] [] [] [] [] [] [] []]; intros H;
    first [reflexivity | destruct H as [x Hx]; discriminate Hx].
Qed.

Lemma fromhex_some l : is_Some (ObjectId.fromhex l) ↔ hex_pairs l.
Proof.
  split.
  - remember (length l) as n eqn:Hn. revert l Hn.
    induction n as [n IH] using lt_wf_ind. intros l Hn H.
    destruct l as [|c r]; [constructor|]. cbn in H, Hn.
    destruct (Py.is_space c) eqn:Hc.
    + apply hex_pairs_space; [exact Hc|].
      apply (IH (length r)); [lia | reflexivity | exact H].
    + destruct (ObjectId.hex_val c) as [top|] eqn:Htop; [|destruct H; discriminate].
      destruct r as [|c' r']; [destruct H; discriminate|].
      destruct (ObjectId.hex_val c') as [bot|] eqn:Hbot; [|destruct H; discriminate].
      apply hex_pairs_pair; [rewrite Htop; eauto | rewrite Hbot; eauto |].
      apply (IH (length r')); [cbn in Hn; lia | reflexivity |].
      destruct (ObjectId.fromhex r'); [eauto | destruct H; discriminate].
  - induction 1 as [|c r Hc _ IH|a b r Ha Hb _ IH]; cbn.
    + eauto.
    + now rewrite Hc.
    + rewrite (hex_val_not_space a Ha).
      destruct Ha as [top ->], Hb as [bot ->], IH as [bs ->]. cbn. eauto.
Qed.

Lemma of_str_some s : is_Some (ObjectId.of_str s) ↔ well_formed s.
Proof.
  unfold ObjectId.of_str, well_formed.
  destruct (Nat.eqb_spec (String.length s) 24) as [E|E].
  - rewrite <- fromhex_some.
    destruct (ObjectId.fromhex (list_ascii_of_string s)); cbn.
    + split; eauto.
    + split; [intros [x Hx]; discriminate | intros [_ [x Hx]]; discriminate].
  - split; [intros [x Hx]; discriminate | tauto].
Qed.

Lemma hex_digits_pairs l n :
  length l = (2 * n)%nat →
  Forall (fun c => is_Some (ObjectId.hex_val c)) l → hex_pairs l.
Proof.
  revert l. induction n as [|n IH]; intros l Hl H.
  - destruct l; [constructor | discriminate].
  - destruct l as [|a [|b r]]; cbn in Hl; try lia.
    inversion H as [|? ? Ha H']; subst. inversion H' as [|? ? Hb Hr]; subst.
    apply hex_pairs_pair; [exact Ha | exact Hb |].
    apply IH; [lia | exact Hr].
Qed.

Lemma length_list_ascii_of_string s :
  length (list_ascii_of_string s) = String.length s.
Proof. induction s as [|c s IH]; cbn; congruence. Qed.

Lemma hex24_well_formed s : hex24 s → well_formed s.
Proof.
  intros [Hlen Hhex]. split; [exact Hlen|].
  apply (hex_digits_pairs _ 12); [|exact Hhex].
  now rewrite length_list_ascii_of_string, Hlen.
Qed.

Lemma is_valid_str s : ObjectId.is_valid (PyStr s) = true ↔ well_formed s.
Proof.
  rewrite <- of_str_some. unfold ObjectId.is_valid, ObjectId.new.
  destruct (ObjectId.of_str s) as [oid|] eqn:E.
  - split; [eauto|]. intros _.
    destruct s; [discriminate E | reflexivity].
  - rewrite andb_false_r. split; [discriminate | intros [x Hx]; discriminate].
Qed.

Lemma is_valid_new v :
  ObjectId.is_valid v = true → ∃ s oid, v = PyStr s ∧ ObjectId.of_str s = Some oid.
Proof.
  unfold ObjectId.is_valid, ObjectId.new. intros H.
  apply andb_true_iff in H as [_ H].
  destruct v; try discriminate.
  destruct (ObjectId.of_str s) as [oid|] eqn:E; [eauto | discriminate].
Qed.

(** ** The store *)

Section Store.
Variable d : Database.
Hypothesis online : fault d = None.

Lemma find_one_online coll oid :
  find_one coll oid (Some d) = (Ok (find_by_id (collection d coll) oid), Some d).
Proof. unfold find_one. now rewrite online. Qed.

Lemma get_documents_online coll :
  get_documents coll (Some d) = (Ok (collection d coll), Some d).
Proof. unfold get_documents. now rewrite online. Qed.

Lemma count_documents_online coll :
  count_documents coll (Some d) = (Ok (Z.of_nat (length (collection d coll))), Some d).
Proof. unfold count_documents. now rewrite online. Qed.

Lemma create_document_online coll data :
  create_document coll data (Some d) =
    (Ok (ObjectId.to_str (next_id d)), Some (insert_one d coll data)).
Proof. unfold create_document. now rewrite online. Qed.

Lemma insert_one_online coll data : fault (insert_one d coll data) = None.
Proof. exact online. Qed.

End Store.

Lemma collection_insert_one d coll data :
  collection (insert_one d coll data) coll =
    collection d coll ++ [ {| _id := next_id d; fields := data |} ].
Proof. unfold collection at 1, insert_one. cbn. now rewrite lookup_insert_eq. Qed.

Lemma collection_insert_one_ne d coll coll' data :
  coll ≠ coll' → collection (insert_one d coll data) coll' = collection d coll'.
Proof.
  intros H. unfold collection, insert_one. cbn. now rewrite lookup_insert_ne.
Qed.

Lemma find_by_id_none l oid :
  find_by_id l oid = None ↔ ∀ doc, In doc l → _id doc ≠ oid.
Proof.
  unfold find_by_id. split.
  - intros H doc Hin Heq.
    pose proof (find_none _ _ H doc Hin) as Hn. cbn in Hn.
    apply String.eqb_neq in Hn. contradiction.
  - intros H. destruct (find _ l) as [doc|] eqn:E; [|reflexivity].
    apply find_some in E as [Hin Heq]. apply String.eqb_eq in Heq.
    now destruct (H doc Hin).
Qed.

Lemma find_by_id_some l oid doc :
  find_by_id l oid = Some doc → In doc l ∧ _id doc = oid.
Proof.
  unfold find_by_id. intros H. apply find_some in H as [Hin Heq].
  now apply String.eqb_eq in Heq.
Qed.

(** ** Membership of a size *)

Lemma contains_list l s :
  Py.contains (PyList l) s = Ok true ↔ In (PyStr s) l.
Proof.
  cbn. split.
  - intros H. injection H as H. apply existsb_exists in H as (v & Hin & Hv).
    destruct v; try discriminate. cbn in Hv.
    apply String.eqb_eq in Hv. now subst.
  - intros H. f_equal. apply existsb_exists. exists (PyStr s). split; [exact H|].
    cbn. apply String.eqb_refl.
Qed.

Lemma contains_list_false l s :
  Py.contains (PyList l) s = Ok false ↔ ¬ In (PyStr s) l.
Proof.
  rewrite <- contains_list. cbn. destruct (existsb (Py.str_eq s) l); split; congruence.
Qed.

(** ** [add_to_cart] *)

Section AddToCart.
Variable d : Database.
Variable body : AddToCartRequest.
Hypothesis online : fault d = None.

Lemma add_to_cart_malformed s :
  ¬ well_formed (product_id body) →
  add_to_cart body s = (Err (HTTPException 400 (Lit "Invalid product id")), s).
Proof.
  intros H. unfold add_to_cart.
  destruct (ObjectId.is_valid (PyStr (product_id body))) eqn:E; [|reflexivity].
  apply is_valid_str in E. contradiction.
Qed.

(** Past the identifier check the handler goes on with the lookup. *)
Lemma add_to_cart_lookup oid :
  ObjectId.of_str (product_id body) = Some oid →
  add_to_cart body (Some d) =
    match find_by_id (collection d "product") oid with
    | None => (Err (HTTPException 404 (Lit "Product not found")), Some d)
    | Some prod =>
        match Py.contains (offered_sizes prod) (size body) with
        | Err e => (Err e, Some d)
        | Ok false =>
            (Err (HTTPException 400 (Lit "Invalid size for this product")), Some d)
        | Ok true =>
            (Ok (added (ObjectId.to_str (next_id d))),
             Some (insert_one d "cartitem" (cart_item body)))
        end
    end.
Proof.
  intros Hoid. unfold add_to_cart.
  assert (ObjectId.is_valid (PyStr (product_id body)) = true) as ->.
  { apply is_valid_str, of_str_some. eauto. }
  cbn [negb]. unfold ObjectId.new. rewrite Hoid.
  unfold mbind at 1, M_bind, lift at 1.
  erewrite bind_ok by apply (find_one_online d online).
  destruct (find_by_id _ oid) as [prod|]; [|reflexivity].
  fold (offered_sizes prod).
  unfold mbind, M_bind, lift.
  destruct (Py.contains _ _) as [[|]|e]; [|reflexivity|reflexivity].
  cbn [negb]. unfold try_except.
  now rewrite (create_document_online d online).
Qed.

End AddToCart.

(** A rejected or failed [add_to_cart] leaves the store as it found it. *)
Lemma add_to_cart_err_state body s e s' :
  add_to_cart body s = (Err e, s') → s' = s.
Proof.
  unfold add_to_cart.
  destruct (ObjectId.is_valid (PyStr (product_id body))); cbn [negb].
  2: { intros [= _ <-]. reflexivity. }
  unfold mbind at 1, M_bind, lift at 1.
  destruct (ObjectId.new (PyStr (product_id body))) as [oid|e0].
  2: { intros [= _ <-]. reflexivity. }
  unfold mbind at 1, M_bind, find_one.
  destruct s as [d|]; [|intros [= _ <-]; reflexivity].
  destruct (fault d) as [why|] eqn:Hf; [intros [= _ <-]; reflexivity|].
  destruct (find_by_id _ oid) as [prod|]; [|intros [= _ <-]; reflexivity].
  unfold mbind, M_bind, lift.
  destruct (Py.contains _ _) as [[|]|e1]; cbn [negb];
    [|intros [= _ <-]; reflexivity|intros [= _ <-]; reflexivity].
  unfold try_except, create_document. rewrite Hf. discriminate.
Qed.

(** C4, as stated, fails: for a product whose stored sizes is [True] the
    test of the size raises [TypeError]; the request gets neither a 400
    nor a cart item. *)
Lemma add_to_cart_unclassified :
  add_to_cart (demo_request "S" 1) (Some (store_of [flagged_sizes_product])) =
    (Err TypeError, Some (store_of [flagged_sizes_product])).
Proof. vm_compute. reflexivity. Qed.

Lemma is_prefix_spec sub l :
  Py.is_prefix sub l = true ↔ ∃ post, l = sub ++ post.
Proof.
  revert l. induction sub as [|a sub IH]; intros l; cbn.
  - split; eauto.
  - destruct l as [|b l].
    + split; [discriminate | intros [post H]; discriminate].
    + rewrite andb_true_iff, IH. split.
      * intros [Hab [post ->]]. apply Ascii.eqb_eq in Hab as ->. eauto.
      * intros [post [= -> ->]]. split; [apply Ascii.eqb_refl | eauto].
Qed.

Lemma is_infix_spec sub l :
  Py.is_infix sub l = true ↔ ∃ pre post, l = pre ++ sub ++ post.
Proof.
  induction l as [|b l IH].
  - cbn. rewrite orb_false_r, is_prefix_spec. split.
    + intros [post H]. exists [], post. exact H.
    + intros (pre & post & H). destruct pre; [eauto | discriminate].
  - cbn [Py.is_infix]. rewrite orb_true_iff, is_prefix_spec, IH. split.
    + intros [[post H]|(pre & post & ->)].
      * exists [], post. exact H.
      * exists (b :: pre), post. reflexivity.
    + intros (pre & post & H). destruct pre as [|c pre].
      * left. eauto.
      * right. injection H as -> ->. eauto.
Qed.

(** C4, amended: [add_to_cart] answers 400 to a product_id that [ObjectId]
    does not take and 404 to one it takes that names no stored product.
    It then tests the size with [in] against the sizes of the product, or
    against XS, S, M, L, XL when the product has no true sizes value: for
    a list, a size that is not an element gets 400 and any other request
    inserts the cart item, made of the product_id, size and quantity of the
    request, and returns its identifier; a string is searched for the size
    as a part of it, a dict for the size as a key; a true number or boolean
    raises [TypeError], which is neither a 400 nor an insert. *)
Theorem add_to_cart_classification (d : Database) (body : AddToCartRequest) :
  fault d = None →
  let rejected status text :=
    add_to_cart body (Some d) = (Err (HTTPException status (Lit text)), Some d) in
  let inserted :=
    add_to_cart body (Some d) =
      (Ok (added (ObjectId.to_str (next_id d))),
       Some (insert_one d "cartitem" (cart_item body))) in
  (¬ well_formed (product_id body) → rejected 400 "Invalid product id") ∧
  (∀ oid,
     ObjectId.of_str (product_id body) = Some oid →
     (∀ doc, In doc (collection d "product") → _id doc ≠ oid) →
     rejected 404 "Product not found") ∧
  (∀ oid prod,
     ObjectId.of_str (product_id body) = Some oid →
     find_by_id (collection d "product") oid = Some prod →
     (Py.truthy (doc_get prod "sizes") = true →
        offered_sizes prod = doc_get prod "sizes") ∧
     (Py.truthy (doc_get prod "sizes") = false →
        offered_sizes prod = PyList (PyStr <$> ["XS"; "S"; "M"; "L"; "XL"])) ∧
     (∀ l, offered_sizes prod = PyList l →
        (¬ In (PyStr (size body)) l → rejected 400 "Invalid size for this product") ∧
        (In (PyStr (size body)) l → inserted)) ∧
     (∀ t, offered_sizes prod = PyStr t →
        let part := ∃ pre post,
          list_ascii_of_string t = pre ++ list_ascii_of_string (size body) ++ post in
        (¬ part → rejected 400 "Invalid size for this product") ∧
        (part → inserted)) ∧
     (∀ m, offered_sizes prod = PyDict m →
        (m !! size body = None → rejected 400 "Invalid size for this product") ∧
        (is_Some (m !! size body) → inserted)) ∧
     ((∃ z, offered_sizes prod = PyInt z) ∨
      (∃ f, offered_sizes prod = PyFloat f) ∨
      (∃ b, offered_sizes prod = PyBool b) →
      add_to_cart body (Some d) = (Err TypeError, Some d))) ∧
  added (ObjectId.to_str (next_id d)) !! "id" = Some (PyStr (ObjectId.to_str (next_id d))) ∧
  collection (insert_one d "cartitem" (cart_item body)) "cartitem" =
    collection d "cartitem" ++
      [ {| _id := next_id d;
           fields := {[ "product_id" := PyStr (product_id body);
                        "size" := PyStr (size body);
                        "quantity" := PyInt (quantity body) ]} |} ].
Proof.
  intros online rejected inserted. subst rejected inserted. cbv beta.
  split; [apply add_to_cart_malformed|]. split; [|split; [|split]].
  - intros oid Hoid Habsent.
    rewrite (add_to_cart_lookup d body online oid Hoid).
    apply find_by_id_none in Habsent. now rewrite Habsent.
  - intros oid prod Hoid Hfound.
    rewrite (add_to_cart_lookup d body online oid Hoid), Hfound.
    split; [|split; [|split; [|split; [|split]]]].
    + intros Ht. unfold offered_sizes, Py.or_. now rewrite Ht.
    + intros Ht. unfold offered_sizes, Py.or_. now rewrite Ht.
    + intros l ->. split; intros Hin.
      * apply contains_list_false in Hin. now rewrite Hin.
      * apply contains_list in Hin. now rewrite Hin.
    + intros t ->. cbn [Py.contains]. split; intros Hin.
      * destruct (Py.is_infix _ _) eqn:E; [|reflexivity].
        apply is_infix_spec in E. contradiction.
      * apply is_infix_spec in Hin. now rewrite Hin.
    + intros m ->. cbn [Py.contains]. split; intros Hin.
      * rewrite bool_decide_false; [reflexivity|]. rewrite Hin. now intros [x Hx].
      * now rewrite bool_decide_true.
    + intros [(z & ->)|[(f & ->)|(b & ->)]]; reflexivity.
  - reflexivity.
  - rewrite collection_insert_one. reflexivity.
Qed.

Lemma add_to_cart_classification_witness :
  add_to_cart (demo_request "S" 2) (Some demo_store) =
    (Ok (added "000000000000000000000008"),
     Some (insert_one demo_store "cartitem" (cart_item (demo_request "S" 2)))) ∧
  add_to_cart (demo_request "XXL" 2) (Some demo_store) =
    (Err (HTTPException 400 (Lit "Invalid size for this product")), Some demo_store).
Proof.
  destruct (add_to_cart_classification demo_store (demo_request "S" 2) eq_refl)
    as (_ & _ & Hsize & _).
  destruct (add_to_cart_classification demo_store (demo_request "XXL" 2) eq_refl)
    as (_ & _ & Hsize' & _).
  split.
  - refine (proj2 (proj1 (proj2 (proj2
              (Hsize (ObjectId.generate 7) demo_product _ _)))
              [PyStr "S"; PyStr "M"] _) _).
    + vm_compute. reflexivity.
    + vm_compute. reflexivity.
    + vm_compute. reflexivity.
    + left. reflexivity.
  - refine (proj1 (proj1 (proj2 (proj2
              (Hsize' (ObjectId.generate 7) demo_product _ _)))
              [PyStr "S"; PyStr "M"] _) _).
    + vm_compute. reflexivity.
    + vm_compute. reflexivity.
    + vm_compute. reflexivity.
    + intros [H|[H|[]]]; discriminate H.
Defined.

(** C10: when [add_to_cart] answers 400 or 404 the store is unchanged: no
    cart item was inserted. *)
Theorem add_to_cart_rejection_atomic body s s' status detail :
  add_to_cart body s = (Err (HTTPException status detail), s') →
  status = 400 ∨ status = 404 →
  s' = s.
Proof. intros H _. exact (add_to_cart_err_state _ _ _ _ H). Qed.

Lemma add_to_cart_rejection_atomic_witness :
  snd (add_to_cart (demo_request "XXL" 1) (Some demo_store)) = Some demo_store.
Proof.
  apply (add_to_cart_rejection_atomic (demo_request "XXL" 1) (Some demo_store) _
           400 (Lit "Invalid size for this product")).
  - vm_compute. reflexivity.
  - left. reflexivity.
Defined.

(** ** Conversion to float *)

Section Rounding.

Lemma iter_pos_invariant {A} (P : A → Prop) (f : A → A) :
  (∀ x, P x → P (f x)) → ∀ n x, P x → P (SpecFloat.iter_pos f n x).
Proof.
  intros Hf. induction n as [n IH|n IH|]; intros x Hx; cbn; auto.
Qed.

Lemma shr_1_nonneg mrs : 0 ≤ shr_m mrs → 0 ≤ shr_m (shr_1 mrs).
Proof.
  destruct mrs as [m r s]. cbn.
  destruct m as [|[p|p|]|[p|p|]]; cbn; lia.
Qed.

Lemma shr_nonneg mrs e n : 0 ≤ shr_m mrs → 0 ≤ shr_m (fst (shr mrs e n)).
Proof.
  intros H. destruct n as [|p|p]; cbn; try exact H.
  apply (iter_pos_invariant (fun x => 0 ≤ shr_m x)); [apply shr_1_nonneg | exact H].
Qed.

Lemma shr_fexp_nonneg m e l :
  0 ≤ m → 0 ≤ shr_m (fst (shr_fexp Py.prec Py.emax m e l)).
Proof.
  intros H. unfold shr_fexp. apply shr_nonneg.
  now destruct l as [|[| |]].
Qed.

Lemma round_nearest_even_nonneg m l : 0 ≤ m → 0 ≤ round_nearest_even m l.
Proof.
  intros H. destruct l as [|[| |]]; cbn; try lia.
  destruct (Z.even m); lia.
Qed.

(** Rounding a non-negative mantissa with a positive sign gives a zero,
    a positive finite number or the positive infinity. *)
Lemma binary_round_aux_sign m e l :
  0 ≤ m →
  match binary_round_aux Py.prec Py.emax false m e l with
  | S754_zero s | S754_infinity s | S754_finite s _ _ => s = false
  | S754_nan => False
  end.
Proof.
  intros H. unfold binary_round_aux.
  pose proof (shr_fexp_nonneg m e l H) as H1.
  destruct (shr_fexp Py.prec Py.emax m e l) as [mrs' e'].
  cbn [fst] in H1.
  pose proof (shr_fexp_nonneg _ e' loc_Exact
                (round_nearest_even_nonneg _ (loc_of_shr_record mrs') H1)) as H2.
  destruct (shr_fexp _ _ _ e' loc_Exact) as [mrs'' e''].
  cbn [fst] in H2.
  destruct (shr_m mrs'') as [|p|p]; [reflexivity | | lia].
  now destruct (e'' <=? Py.emax - Py.prec).
Qed.

Lemma float_of_int_nonneg z f :
  0 ≤ z → Py.float_of_int z = Ok f → nonneg_real (PyFloat f) = true.
Proof.
  intros Hz. unfold Py.float_of_int, binary_normalize.
  destruct z as [|p|p]; [intros [= <-]; reflexivity | | lia].
  unfold binary_round.
  destruct (shl_align p 0 _) as [mz ez].
  pose proof (binary_round_aux_sign (Z.pos mz) ez loc_Exact ltac:(lia)) as H.
  destruct (binary_round_aux _ _ _ _ _ _) as [s|s| |s m e];
    [ | discriminate | contradiction | ]; intros [= <-]; cbn;
    [reflexivity | now subst].
Qed.

End Rounding.

Lemma float_nonneg v f :
  nonneg_number v → Py.float v = Ok f → nonneg_real (PyFloat f) = true.
Proof.
  destruct v; cbn [nonneg_number Py.float]; try contradiction.
  - apply float_of_int_nonneg.
  - now intros H [= <-].
Qed.

(** ** [get_cart] *)

Lemma resolve_product_invalid pid s :
  ObjectId.is_valid pid = false → resolve_product pid s = (Ok None, s).
Proof. intros H. unfold resolve_product. now rewrite H. Qed.

Lemma resolve_product_online d str oid :
  fault d = None →
  ObjectId.of_str str = Some oid →
  resolve_product (PyStr str) (Some d) =
    (Ok (find_by_id (collection d "product") oid), Some d).
Proof.
  intros online Hoid. unfold resolve_product.
  assert (ObjectId.is_valid (PyStr str) = true) as ->.
  { apply is_valid_str, of_str_some. eauto. }
  unfold ObjectId.new. rewrite Hoid.
  unfold mbind, M_bind, lift. now apply find_one_online.
Qed.

Lemma resolve_product_unresolved pid s :
  unresolved s pid → resolve_product pid s = (Ok None, s).
Proof.
  intros [H|(d & str & oid & -> & online & -> & Hoid & Habsent)].
  - now apply resolve_product_invalid.
  - rewrite (resolve_product_online d str oid online Hoid).
    apply find_by_id_none in Habsent. now rewrite Habsent.
Qed.

(** With a working store every product resolves to what [find_by_id]
    gives, or to nothing. *)
Lemma resolve_product_cases d pid :
  fault d = None →
  ∃ prod, resolve_product pid (Some d) = (Ok prod, Some d) ∧
          (prod = None → unresolved (Some d) pid) ∧
          (∀ p, prod = Some p → In p (collection d "product")).
Proof.
  intros online.
  destruct (ObjectId.is_valid pid) eqn:E.
  - destruct (is_valid_new pid E) as (str & oid & -> & Hoid).
    exists (find_by_id (collection d "product") oid).
    split; [now apply resolve_product_online|]. split.
    + intros Hnone. right. exists d, str, oid.
      repeat split; auto. now apply find_by_id_none.
    + intros p Hp. now apply find_by_id_some in Hp.
  - exists None. split; [now apply resolve_product_invalid|].
    split; [now left | discriminate].
Qed.

Lemma enrich_resolved it s prod s' :
  resolve_product (doc_get_or it "product_id" (PyStr "")) s = (Ok prod, s') →
  enrich it s =
    match prod with
    | None => (Ok (cart_view it None (PyInt 0)), s')
    | Some p =>
        match Py.float (doc_get_or p "price" (PyInt 0)) with
        | Ok f => (Ok (cart_view it prod (PyFloat f)), s')
        | Err e => (Err e, s')
        end
    end.
Proof.
  intros H. unfold enrich. rewrite (bind_ok _ _ _ _ _ H).
  destruct prod as [p|]; [|reflexivity].
  unfold mbind at 1, M_bind, lift.
  now destruct (Py.float _).
Qed.

Lemma enrich_unresolved (it : document) (s : option Database) :
  unresolved s (doc_get_or it "product_id" (PyStr "")) →
  enrich it s = (Ok (cart_view it None (PyInt 0)), s).
Proof.
  intros H. apply resolve_product_unresolved in H.
  now rewrite (enrich_resolved it s None s H).
Qed.

(** A loop whose steps all succeed without touching the state succeeds,
    with one result per item. *)
Lemma for_each_ok {A B} (f : A → M B) (P : A → B → Prop) s l :
  (∀ a, In a l → ∃ b, f a s = (Ok b, s) ∧ P a b) →
  ∃ bs, for_each f l s = (Ok bs, s) ∧ Forall2 P l bs.
Proof.
  induction l as [|a l IH]; intros H.
  - exists []. split; [reflexivity | constructor].
  - destruct (H a (or_introl eq_refl)) as (b & Hb & HP).
    destruct IH as (bs & Hbs & HF); [intros x Hx; apply H; now right|].
    exists (b :: bs). split; [|now constructor].
    cbn [for_each]. rewrite (bind_ok _ _ _ _ _ Hb), (bind_ok _ _ _ _ _ Hbs).
    reflexivity.
Qed.

(** C7, as stated, fails: the price of a view is the stored price of the
    product converted by [float], so a stored -5 is shown as -5.0. *)
Lemma get_cart_negative_price :
  ∃ view,
    fst (get_cart (Some demo_cart_store)) = Ok {[ "items" := PyList [PyDict view] ]} ∧
    view !! "price" = Some (PyFloat (S754_finite true 5629499534213120 (-50))) ∧
    nonneg_real (PyFloat (S754_finite true 5629499534213120 (-50))) = false.
Proof.
  eexists. split; [vm_compute; reflexivity|].
  split; reflexivity.
Qed.

(** ** The quantity of a cart item *)

Lemma parse_request_body p s q :
  parse_AddToCartRequest (request_body p s q) =
    Ok {| product_id := p; size := s; quantity := default 1 q |}.
Proof. destruct q; reflexivity. Qed.

(** C8, as stated, fails: a request with quantity 0 passes validation and
    its cart item is inserted with quantity 0. *)
Lemma add_to_cart_zero_quantity :
  parse_AddToCartRequest (request_body "000000000000000000000007" "S" (Some 0)) =
    Ok (demo_request "S" 0) ∧
  add_to_cart (demo_request "S" 0) (Some demo_store) =
    (Ok (added "000000000000000000000008"),
     Some (insert_one demo_store "cartitem" (cart_item (demo_request "S" 0)))) ∧
  collection (insert_one demo_store "cartitem" (cart_item (demo_request "S" 0))) "cartitem" =
    [ {| _id := ObjectId.generate 8; fields := cart_item (demo_request "S" 0) |} ] ∧
  cart_item (demo_request "S" 0) !! "quantity" = Some (PyInt 0).
Proof.
  split; [reflexivity|]. split; [vm_compute; reflexivity|].
  split; reflexivity.
Qed.

(** C8, amended: [add_to_cart] takes any integer as quantity, 1 when it is
    left out, and puts no lower bound on it: a request that passes the
    product and size checks is inserted with the quantity it carries. *)
Theorem add_to_cart_quantity (d : Database) (p s : string) (q : option Z) oid prod l :
  fault d = None →
  ObjectId.of_str p = Some oid →
  find_by_id (collection d "product") oid = Some prod →
  offered_sizes prod = PyList l →
  In (PyStr s) l →
  ∃ body d',
    parse_AddToCartRequest (request_body p s q) = Ok body ∧
    quantity body = default 1 q ∧
    add_to_cart body (Some d) = (Ok (added (ObjectId.to_str (next_id d))), Some d') ∧
    collection d' "cartitem" =
      collection d "cartitem" ++ [ {| _id := next_id d; fields := cart_item body |} ] ∧
    cart_item body !! "quantity" = Some (PyInt (default 1 q)).
Proof.
  intros online Hoid Hfound Hsizes Hin.
  exists {| product_id := p; size := s; quantity := default 1 q |}.
  exists (insert_one d "cartitem"
            (cart_item {| product_id := p; size := s; quantity := default 1 q |})).
  split; [apply parse_request_body|]. split; [reflexivity|].
  split; [|split; [apply collection_insert_one | reflexivity]].
  rewrite (add_to_cart_lookup d {| product_id := p; size := s; quantity := default 1 q |}
             online oid Hoid), Hfound, Hsizes.
  apply contains_list in Hin. cbn [size]. now rewrite Hin.
Qed.

Lemma add_to_cart_quantity_witness :
  ∃ body d',
    parse_AddToCartRequest (request_body "000000000000000000000007" "M" (Some (-3))) = Ok body ∧
    quantity body = -3 ∧
    add_to_cart body (Some demo_store) = (Ok (added "000000000000000000000008"), Some d') ∧
    collection d' "cartitem" =
      collection demo_store "cartitem" ++ [ {| _id := ObjectId.generate 8; fields := cart_item body |} ] ∧
    cart_item body !! "quantity" = Some (PyInt (-3)).
Proof.
  apply (add_to_cart_quantity demo_store "000000000000000000000007" "M" (Some (-3))
           (ObjectId.generate 7) demo_product [PyStr "S"; PyStr "M"]).
  - reflexivity.
  - vm_compute. reflexivity.
  - vm_compute. reflexivity.
  - vm_compute. reflexivity.
  - right. left. reflexivity.
Defined.

(** ** [test_database] *)

(** The endpoint always answers, leaves the store alone, and ends by
    writing the two presence flags over whatever the probe had put there. *)
Lemma test_database_response env s :
  ∃ probe,
    test_database env s =
      (Ok (<["database_name" := presence env "DATABASE_NAME"]>
           (<["database_url" := presence env "DATABASE_URL"]> probe)), s).
Proof.
  unfold test_database, presence.
  destruct s as [d|].
  - destruct (fault d) as [why|] eqn:Hf.
    + eexists.
      cbv [mbind M_bind try_except get_db list_collection_names mret M_ret].
      rewrite Hf. reflexivity.
    + eexists.
      cbv [mbind M_bind try_except get_db list_collection_names mret M_ret].
      rewrite Hf. reflexivity.
  - eexists. reflexivity.
Qed.

Lemma response_flags (url dbname : diag) (probe : gmap string diag) :
  <["database_name" := dbname]> (<["database_url" := url]> probe) !! "database_url" = Some url ∧
  <["database_name" := dbname]> (<["database_url" := url]> probe) !! "database_name" = Some dbname.
Proof.
  split; [|apply lookup_insert_eq].
  rewrite lookup_insert_ne by done. apply lookup_insert_eq.
Qed.

Lemma env_set_nonempty env k v : env !! k = Some v → v ≠ "" → env_set env k = true.
Proof.
  intros H Hv. unfold env_set. rewrite H.
  destruct (String.eqb_spec v ""); [contradiction | reflexivity].
Qed.

(** C9: [test_database] never raises, and its fields [database_url] and
    [database_name] tell only whether [DATABASE_URL] and [DATABASE_NAME]
    are set: two environments that set the variable to non-empty values,
    however different, get the same field. *)
Theorem test_database_presence_only (env1 env2 : gmap string string) (s1 s2 : option Database) :
  ∃ r1 r2,
    test_database env1 s1 = (Ok r1, s1) ∧
    test_database env2 s2 = (Ok r2, s2) ∧
    (∀ u1 u2,
       env1 !! "DATABASE_URL" = Some u1 → env2 !! "DATABASE_URL" = Some u2 →
       u1 ≠ "" → u2 ≠ "" →
       r1 !! "database_url" = r2 !! "database_url") ∧
    (∀ n1 n2,
       env1 !! "DATABASE_NAME" = Some n1 → env2 !! "DATABASE_NAME" = Some n2 →
       n1 ≠ "" → n2 ≠ "" →
       r1 !! "database_name" = r2 !! "database_name").
Proof.
  destruct (test_database_response env1 s1) as (p1 & H1).
  destruct (test_database_response env2 s2) as (p2 & H2).
  eexists. eexists. split; [exact H1|]. split; [exact H2|]. split.
  - intros u1 u2 E1 E2 N1 N2.
    rewrite !(proj1 (response_flags _ _ _)). unfold presence.
    now rewrite (env_set_nonempty _ _ _ E1 N1), (env_set_nonempty _ _ _ E2 N2).
  - intros n1 n2 E1 E2 N1 N2.
    rewrite !(proj2 (response_flags _ _ _)). unfold presence.
    now rewrite (env_set_nonempty _ _ _ E1 N1), (env_set_nonempty _ _ _ E2 N2).
Qed.

Lemma test_database_presence_only_witness :
  ∃ r1 r2,
    test_database (demo_env "mongodb://a" "shop") (Some demo_store) = (Ok r1, Some demo_store) ∧
    test_database (demo_env "mongodb://b" "swag") None = (Ok r2, None) ∧
    r1 !! "database_url" = r2 !! "database_url" ∧
    r1 !! "database_name" = r2 !! "database_name".
Proof.
  destruct (test_database_presence_only
              (demo_env "mongodb://a" "shop") (demo_env "mongodb://b" "swag")
              (Some demo_store) None) as (r1 & r2 & H1 & H2 & Hurl & Hname).
  exists r1, r2. split; [exact H1|]. split; [exact H2|]. split.
  - apply (Hurl "mongodb://a" "mongodb://b"); [reflexivity | reflexivity | discriminate | discriminate].
  - apply (Hname "shop" "swag"); [reflexivity | reflexivity | discriminate | discriminate].
Defined.

(** ** [seed_products] *)

(** C5: [seed_products] is written to insert its 3 products into an empty
    product collection and to leave a non-empty one alone, and does
    neither: on a database handle the test [if db] raises
    [NotImplementedError] inside the [try], so with a database configured
    the handler answers 500 and inserts nothing, whatever the product
    collection holds; without one it has no store to insert into and
    answers 500 as well. *)
Theorem seed_products_never_seeds (s : option Database) :
  ∃ e,
    seed_products s = (Err (HTTPException 500 (StrOf e)), s) ∧
    (∀ d, s = Some d → e = NotImplementedError).
Proof.
  destruct s as [d|].
  - exists NotImplementedError. split; [reflexivity | reflexivity].
  - eexists. split; [reflexivity | discriminate].
Qed.

(** ** Normalization *)

Lemma as_str_ok v : is_str v = true → ∃ s, v = PyStr s ∧ schemas.as_str v = Ok s.
Proof. destruct v; try discriminate. eauto. Qed.

Lemma as_optional_str_ok v :
  is_optional_str v = true →
  ∃ o, schemas.as_optional_str v = Ok o ∧ (v = PyNone → o = None).
Proof.
  destruct v; try discriminate; intros _; eexists; (split; [reflexivity|]);
    [reflexivity | discriminate].
Qed.

Lemma as_str_list_items_ok l :
  forallb is_str l = true →
  ∃ ss, schemas.as_str_list_items l = Ok ss ∧ l = PyStr <$> ss.
Proof.
  induction l as [|v l IH]; cbn [forallb].
  - exists []. split; reflexivity.
  - intros H. apply andb_true_iff in H as [Hv Hl].
    destruct (as_str_ok v Hv) as (s & -> & _).
    destruct (IH Hl) as (ss & Hss & ->).
    exists (s :: ss). cbn. unfold mbind, result_bind. rewrite Hss.
    split; reflexivity.
Qed.

Lemma normalize_product_conforms it :
  conforms it = true → ∃ p, normalize_product it = Ok p ∧ public_form it p.
Proof.
  unfold conforms. intros H.
  apply andb_true_iff in H as [H Himage].
  apply andb_true_iff in H as [H Hsizes].
  apply andb_true_iff in H as [H Hcat].
  apply andb_true_iff in H as [H Hprice].
  apply andb_true_iff in H as [Htitle Hdesc].
  destruct (Py.float (doc_get_or it "price" (PyInt 0))) as [f|] eqn:Hf; [|discriminate].
  destruct (Py.or_ (doc_get it "sizes") DEFAULT_SIZES) as [| | | | |l|] eqn:Hs;
    try discriminate.
  destruct (as_str_ok _ Htitle) as (t & Ht & Ht').
  destruct (as_str_ok _ Hcat) as (c & Hc & Hc').
  destruct (as_optional_str_ok _ Hdesc) as (dd & Hd & Hd').
  destruct (as_optional_str_ok _ Himage) as (im & Hi & Hi').
  destruct (as_str_list_items_ok l Hsizes) as (ss & Hss & ->).
  eexists. split.
  - unfold normalize_product. rewrite Hf, Hs. cbn [mbind result_bind].
    unfold schemas.new. rewrite Ht', Hd, Hc', Hi. cbn [mbind result_bind].
    unfold schemas.as_price. rewrite Hprice. cbn [mbind result_bind].
    unfold schemas.as_str_list. rewrite Hss. reflexivity.
  - unfold public_form. cbn. repeat split; try assumption.
    + intros Hnone. apply Hd'. unfold doc_get, Py.get. now rewrite Hnone.
    + intros Hnone. apply Hi'. unfold doc_get, Py.get. now rewrite Hnone.
Qed.

Lemma fmap_PyStr_inj (a b : list string) : PyStr <$> a = PyStr <$> b → a = b.
Proof.
  revert b. induction a as [|x a IH]; intros [|y b]; cbn; try discriminate.
  - reflexivity.
  - intros [= -> H]. f_equal. now apply IH.
Qed.

Lemma public_form_defaults it p : public_form it p → defaults_applied it p.
Proof.
  intros (Ht & Hp & Hc & Hi & Hs & _ & _).
  unfold defaults_applied, doc_get_or, doc_get, Py.get_or, Py.get in *.
  repeat split; intros Hnone; rewrite Hnone in *; cbn in *.
  - now injection Ht.
  - now injection Hp.
  - now injection Hc.
  - exact Hi.
  - symmetry. apply fmap_PyStr_inj. injection Hs as Hs. exact Hs.
Qed.

(** C1, as stated, fails: a price of the wrong type is not replaced by the
    default; [float] raises and [list_products] answers 500. *)
Lemma normalize_product_raises :
  normalize_product null_price_product = Err TypeError ∧
  list_products (Some (store_of [null_price_product])) =
    (Err (HTTPException 500 (StrOf TypeError)), Some (store_of [null_price_product])).
Proof. split; vm_compute; reflexivity. Qed.

(** C1, amended: when each field that the public form reads is missing or
    of the schema's type, whatever else the documents hold, normalization
    as performed in [list_products] completes without raising, with one
    product per stored document, and each missing field that has a default
    gets it.  A field of the wrong type is not replaced. *)
Theorem list_products_total_on_conforming (d : Database) :
  fault d = None →
  (∀ it, In it (collection d "product") → conforms it = true) →
  ∃ ps,
    list_products (Some d) = (Ok ps, Some d) ∧
    Forall2 (fun it p => normalize_product it = Ok p ∧ defaults_applied it p)
            (collection d "product") ps.
Proof.
  intros online Hconf.
  destruct (for_each_ok (fun it => lift (normalize_product it))
              (fun it p => normalize_product it = Ok p ∧ defaults_applied it p)
              (Some d) (collection d "product")) as (ps & Hps & HF).
  { intros it Hin.
    destruct (normalize_product_conforms it (Hconf it Hin)) as (p & Hp & Hform).
    exists p. unfold lift. rewrite Hp.
    split; [reflexivity|]. split; [reflexivity|].
    now apply public_form_defaults. }
  exists ps. split; [|exact HF].
  unfold list_products. apply try_ok.
  rewrite (bind_ok _ _ _ _ _ (get_documents_online d online "product")).
  exact Hps.
Qed.

Lemma list_products_total_on_conforming_witness :
  ∃ ps,
    list_products (Some (store_of [bare_product])) = (Ok ps, Some (store_of [bare_product])) ∧
    Forall2 (fun it p => normalize_product it = Ok p ∧ defaults_applied it p)
            (collection (store_of [bare_product]) "product") ps.
Proof.
  apply (list_products_total_on_conforming (store_of [bare_product])); [reflexivity|].
  intros it [<-|[]]. vm_compute. reflexivity.
Defined.

(** C2, as stated, fails: with the price ["bad"] the example does not
    normalize; [float] raises [ValueError] and [list_products] answers 500. *)
Lemma tee_bad_price_raises :
  normalize_product (tee (Some (PyStr "bad"))) = Err ValueError ∧
  normalize_product (tee (Some (PyStr "bad"))) ≠ Ok tee_public ∧
  fst (list_products (Some (store_of [tee (Some (PyStr "bad"))]))) =
    Err (HTTPException 500 (StrOf ValueError)).
Proof.
  split; [vm_compute; reflexivity|].
  split; [vm_compute; discriminate | vm_compute; reflexivity].
Qed.

(** C2, amended: the example without its price field normalizes in public
    form to exactly the product of the spec, and so does it with a price
    of 0; in particular every conforming document without a price field
    normalizes to price 0. *)
Theorem normalize_absent_price (it : document) :
  conforms it = true →
  fields it !! "price" = None →
  normalize_product (tee None) = Ok tee_public ∧
  normalize_product (tee (Some (PyInt 0))) = Ok tee_public ∧
  ∃ p, normalize_product it = Ok p ∧ schemas.price p = Py.zero.
Proof.
  intros Hconf Hprice.
  split; [vm_compute; reflexivity|]. split; [vm_compute; reflexivity|].
  destruct (normalize_product_conforms it Hconf) as (p & Hp & Hform).
  exists p. split; [exact Hp|].
  now apply (public_form_defaults it p Hform).
Qed.

Lemma normalize_absent_price_witness :
  normalize_product (tee None) = Ok tee_public ∧
  normalize_product (tee (Some (PyInt 0))) = Ok tee_public ∧
  ∃ p, normalize_product bare_product = Ok p ∧ schemas.price p = Py.zero.
Proof.
  apply (normalize_absent_price bare_product); vm_compute; reflexivity.
Defined.

(** ** The sizes rule *)

Lemma or_default_list l : l ≠ [] → Py.or_ (PyList l) DEFAULT_SIZES = PyList l.
Proof. destruct l; [contradiction | reflexivity]. Qed.

(** The full form of a document whose price converts. *)
Lemma normalize_product_full_sizes it f :
  Py.float (doc_get_or it "price" (PyInt 0)) = Ok f →
  ∃ out, normalize_product_full it = Ok out ∧
         out !! "sizes" = Some (Py.or_ (doc_get it "sizes") DEFAULT_SIZES).
Proof.
  intros Hf. unfold normalize_product_full. rewrite Hf. cbn [mbind result_bind].
  eexists. split; [reflexivity|].
  repeat (rewrite lookup_insert_ne by done). apply lookup_insert_eq.
Qed.

(** C3, as stated, fails: a document with a non-empty size list and a price
    that [float] rejects has no normal form at all, in either form. *)
Lemma sizes_lost_on_bad_price :
  normalize_product sized_bad_price_product = Err ValueError ∧
  normalize_product_full sized_bad_price_product = Err ValueError ∧
  fst (list_products (Some (store_of [sized_bad_price_product]))) =
    Err (HTTPException 500 (StrOf ValueError)) ∧
  fst (list_products_full (Some (store_of [sized_bad_price_product]))) =
    Err (HTTPException 500 (StrOf ValueError)).
Proof. repeat split; vm_compute; reflexivity. Qed.

(** C3, amended: for every raw product document that normalization accepts
    (in the full form one whose price is missing or converts by [float], in
    the public form a conforming one), a [sizes] field that is a non-empty
    list comes out as that list, in order, and a [sizes] field that is
    missing or empty comes out as XS, S, M, L, XL; the rule is the same in
    both forms. *)
Theorem sizes_rule (it : document) (f : spec_float) :
  Py.float (doc_get_or it "price" (PyInt 0)) = Ok f →
  (∃ out,
     normalize_product_full it = Ok out ∧
     (∀ l, l ≠ [] → fields it !! "sizes" = Some (PyList l) →
           out !! "sizes" = Some (PyList l)) ∧
     (fields it !! "sizes" = None ∨ fields it !! "sizes" = Some (PyList []) →
      out !! "sizes" = Some (PyList (PyStr <$> default_size_labels)))) ∧
  (conforms it = true →
   ∃ p,
     normalize_product it = Ok p ∧
     (∀ ss, ss ≠ [] → fields it !! "sizes" = Some (PyList (PyStr <$> ss)) →
            schemas.sizes p = ss) ∧
     (fields it !! "sizes" = None ∨ fields it !! "sizes" = Some (PyList []) →
      schemas.sizes p = default_size_labels)).
Proof.
  intros Hf. split.
  - destruct (normalize_product_full_sizes it f Hf) as (out & Hout & Hsizes).
    exists out. split; [exact Hout|]. rewrite Hsizes.
    unfold doc_get, Py.get. split.
    + intros l Hl ->. cbn [from_option id]. now rewrite or_default_list.
    + intros [-> | ->]; reflexivity.
  - intros Hconf.
    destruct (normalize_product_conforms it Hconf) as (p & Hp & Hform).
    exists p. split; [exact Hp|].
    destruct Hform as (_ & _ & _ & _ & Hs & _ & _).
    unfold doc_get, Py.get in Hs. split.
    + intros ss Hss Hstored. rewrite Hstored in Hs. cbn [from_option id] in Hs.
      rewrite or_default_list in Hs by (destruct ss; [contradiction | discriminate]).
      injection Hs as Hs. symmetry. now apply fmap_PyStr_inj.
    + intros [Hstored | Hstored]; rewrite Hstored in Hs;
        injection Hs as Hs; symmetry; now apply fmap_PyStr_inj.
Qed.

Lemma sizes_rule_witness :
  (∃ out,
     normalize_product_full two_sizes_product = Ok out ∧
     out !! "sizes" = Some (PyList [PyStr "L"; PyStr "S"])) ∧
  (∃ p,
     normalize_product two_sizes_product = Ok p ∧
     schemas.sizes p = ["L"; "S"]).
Proof.
  destruct (sizes_rule two_sizes_product Py.zero eq_refl) as [Hfull Hpublic].
  split.
  - destruct Hfull as (out & Hout & Hkeep & _).
    exists out. split; [exact Hout|].
    apply Hkeep; [discriminate | reflexivity].
  - destruct (Hpublic eq_refl) as (p & Hp & Hkeep & _).
    exists p. split; [exact Hp|].
    apply Hkeep; [discriminate | reflexivity].
Defined.


(** * Further properties of the handlers *)

(** ** Loops *)

Lemma for_each_traverse {A B} (f : A → M B) (g : A → result B) s l :
  (∀ a, In a l → f a s = (g a, s)) →
  for_each f l s = (traverse g l, s).
Proof.
  induction l as [|a l IH]; intros H; [reflexivity|].
  cbn [for_each traverse]. unfold mbind at 1, M_bind.
  rewrite (H a (or_introl eq_refl)).
  destruct (g a) as [b|e]; [|reflexivity].
  unfold mbind at 1, M_bind. rewrite IH by (intros x Hx; apply H; now right).
  cbn. now destruct (traverse g l).
Qed.

Lemma traverse_all_ok {A B} (f : A → result B) (P : A → B → Prop) l :
  (∀ a, In a l → ∃ b, f a = Ok b ∧ P a b) →
  ∃ bs, traverse f l = Ok bs ∧ Forall2 P l bs.
Proof.
  induction l as [|a l IH]; intros H.
  - exists []. split; [reflexivity | constructor].
  - destruct (H a (or_introl eq_refl)) as (b & Hb & HP).
    destruct IH as (bs & Hbs & HF); [intros x Hx; apply H; now right|].
    exists (b :: bs). cbn. rewrite Hb. cbn. rewrite Hbs.
    split; [reflexivity | now constructor].
Qed.

Lemma traverse_err {A B} (f : A → result B) l a e :
  In a l → f a = Err e → ∃ e', traverse f l = Err e'.
Proof.
  induction l as [|x l IH]; intros Hin Hf; [contradiction|].
  cbn. destruct (f x) as [b|e0] eqn:Hx; [|eauto].
  destruct Hin as [->|Hin]; [congruence|].
  destruct (IH Hin Hf) as (e' & He'). cbn. rewrite He'. eauto.
Qed.

Lemma traverse_snoc {A B} (f : A → result B) l a bs b :
  traverse f l = Ok bs → f a = Ok b → traverse f (l ++ [a]) = Ok (bs ++ [b]).
Proof.
  revert bs. induction l as [|x l IH]; intros bs Hl Ha.
  - injection Hl as <-. cbn. now rewrite Ha.
  - cbn in Hl |- *. destruct (f x) as [y|]; [|discriminate].
    cbn in Hl |- *. destruct (traverse f l) as [ys|] eqn:Hys; [|discriminate].
    injection Hl as <-. now rewrite (IH ys eq_refl Ha).
Qed.

(** ** The listings over a working store *)

Section Online.
Variable d : Database.
Hypothesis online : fault d = None.

Lemma resolve_product_of it :
  resolve_product (doc_get_or it "product_id" (PyStr "")) (Some d) =
    (Ok (product_of (collection d "product") it), Some d).
Proof.
  unfold product_of.
  destruct (ObjectId.is_valid (doc_get_or it "product_id" (PyStr ""))) eqn:E.
  - destruct (is_valid_new _ E) as (str & oid & -> & Hoid).
    rewrite Hoid. now apply resolve_product_online.
  - rewrite (resolve_product_invalid _ _ E).
    destruct (doc_get_or it "product_id" (PyStr "")) as [| | | |str| |]; try reflexivity.
    destruct (ObjectId.of_str str) as [oid|] eqn:Hoid; [|reflexivity].
    assert (ObjectId.is_valid (PyStr str) = true) as Hv.
    { apply is_valid_str, of_str_some. eauto. }
    congruence.
Qed.

Lemma enrich_online it :
  enrich it (Some d) = (view_of (collection d "product") it, Some d).
Proof.
  rewrite (enrich_resolved it _ _ _ (resolve_product_of it)).
  unfold view_of, stored_price.
  destruct (product_of _ it) as [p|]; [|reflexivity].
  now destruct (Py.float _).
Qed.

Lemma get_cart_online :
  get_cart (Some d) =
    (wrap_500 (views ← traverse (view_of (collection d "product")) (collection d "cartitem");
               Ok (cart_response views)),
     Some d).
Proof.
  unfold get_cart, try_except.
  rewrite (bind_ok _ _ _ _ _ (get_documents_online d online "cartitem")).
  unfold mbind at 1, M_bind.
  rewrite (for_each_traverse enrich (view_of (collection d "product")))
    by (intros it _; apply enrich_online).
  now destruct (traverse _ _).
Qed.

Lemma list_products_full_online :
  list_products_full (Some d) =
    (wrap_500 (traverse normalize_product_full (collection d "product")), Some d).
Proof.
  unfold list_products_full, try_except.
  rewrite (bind_ok _ _ _ _ _ (get_documents_online d online "product")).
  rewrite (for_each_traverse _ normalize_product_full) by reflexivity.
  now destruct (traverse _ _).
Qed.

Lemma list_products_online :
  list_products (Some d) =
    (wrap_500 (traverse normalize_product (collection d "product")), Some d).
Proof.
  unfold list_products, try_except.
  rewrite (bind_ok _ _ _ _ _ (get_documents_online d online "product")).
  rewrite (for_each_traverse _ normalize_product) by reflexivity.
  now destruct (traverse _ _).
Qed.

End Online.

(** Without a reachable store the three listings answer 500. *)
Lemma get_documents_offline s coll :
  (s = None ∨ ∃ d why, s = Some d ∧ fault d = Some why) →
  ∃ e, get_documents coll s = (Err e, s).
Proof.
  intros [-> | (d & why & -> & Hf)]; unfold get_documents.
  - eauto.
  - rewrite Hf. eauto.
Qed.

Lemma store_cases (s : option Database) :
  (∃ d, s = Some d ∧ fault d = None) ∨
  (s = None ∨ ∃ d why, s = Some d ∧ fault d = Some why).
Proof.
  destruct s as [d|]; [|now right; left].
  destruct (fault d) as [why|] eqn:Hf; [right; right; eauto | left; eauto].
Qed.

Lemma view_of_item_view products it v :
  view_of products it = Ok v → item_view products it v.
Proof.
  unfold view_of, item_view.
  destruct (product_of products it) as [p|].
  - destruct (Py.float (stored_price p)) as [f|] eqn:Hf; [|discriminate].
    intros [= <-]. do 4 (split; [reflexivity|]).
    intros p' [= <-]. do 2 (split; [reflexivity|]).
    exists f. split; [exact Hf | reflexivity].
  - intros [= <-]. do 4 (split; [reflexivity|]). discriminate.
Qed.

Lemma product_of_in products it p : product_of products it = Some p → In p products.
Proof.
  unfold product_of. destruct (doc_get_or _ _ _); try discriminate.
  destruct (ObjectId.of_str s); [|discriminate].
  intros H. now apply find_by_id_some in H.
Qed.

Lemma view_of_ok products it :
  (∀ p, In p products → price_converts p) →
  ∃ v, view_of products it = Ok v ∧ item_view products it v.
Proof.
  intros Hprices.
  assert (∃ v, view_of products it = Ok v) as (v & Hv).
  { unfold view_of. destruct (product_of products it) as [p|] eqn:Hp; [|eauto].
    destruct (Hprices p (product_of_in _ _ _ Hp)) as (f & Hf). rewrite Hf. eauto. }
  exists v. split; [exact Hv | now apply view_of_item_view].
Qed.

Lemma traverse_app {A B} (f : A → result B) l1 l2 bs1 bs2 :
  traverse f l1 = Ok bs1 → traverse f l2 = Ok bs2 →
  traverse f (l1 ++ l2) = Ok (bs1 ++ bs2).
Proof.
  revert bs1. induction l1 as [|x l1 IH]; intros bs1 H1 H2.
  - injection H1 as <-. exact H2.
  - cbn in H1 |- *. destruct (f x) as [y|]; [|discriminate].
    cbn in H1 |- *. destruct (traverse f l1) as [ys|] eqn:Hys; [|discriminate].
    injection H1 as <-. now rewrite (IH ys eq_refl H2).
Qed.

Lemma traverse_length {A B} (f : A → result B) l bs :
  traverse f l = Ok bs → length bs = length l.
Proof.
  revert bs. induction l as [|x l IH]; intros bs H.
  - now injection H as <-.
  - cbn in H. destruct (f x) as [y|]; [|discriminate].
    cbn in H. destruct (traverse f l) as [ys|]; [|discriminate].
    injection H as <-. cbn. now rewrite (IH ys eq_refl).
Qed.

Lemma unresolved_product_of d it :
  fault d = None →
  unresolved (Some d) (doc_get_or it "product_id" (PyStr "")) →
  product_of (collection d "product") it = None.
Proof.
  intros online H. apply resolve_product_unresolved in H.
  rewrite (resolve_product_of d online it) in H. now injection H.
Qed.

(** ** The cart listing *)

(** C6: for a stored cart item whose [product_id] is malformed or names no
    stored product, the response of [get_cart] holds, at the place of the
    item, a view with title null, price 0 and image null, and with the
    size and the quantity of the stored cart item; the item raises no
    error: [get_cart] answers whenever the other items can be shown. *)
Theorem get_cart_unresolved (d : Database) (l1 l2 : list document) (it : document) :
  fault d = None →
  collection d "cartitem" = l1 ++ it :: l2 →
  unresolved (Some d) (doc_get_or it "product_id" (PyStr "")) →
  (∀ x, In x (l1 ++ l2) → ∃ v, enrich x (Some d) = (Ok v, Some d)) →
  ∃ vs1 view vs2,
    get_cart (Some d) =
      (Ok {[ "items" := PyList (PyDict <$> (vs1 ++ view :: vs2)) ]}, Some d) ∧
    length vs1 = length l1 ∧
    length vs2 = length l2 ∧
    view !! "title" = Some PyNone ∧
    view !! "price" = Some (PyInt 0) ∧
    view !! "image" = Some PyNone ∧
    (∀ v, fields it !! "size" = Some v → view !! "size" = Some v) ∧
    (∀ q, fields it !! "quantity" = Some q → view !! "quantity" = Some q).
Proof.
  intros online Hcart Hun Hothers.
  assert (∀ l, (∀ x, In x l → In x (l1 ++ l2)) →
               ∃ vs, traverse (view_of (collection d "product")) l = Ok vs) as Hpart.
  { intros l Hl.
    destruct (traverse_all_ok (view_of (collection d "product")) (fun _ _ => True) l)
      as (vs & Hvs & _); [|eauto].
    intros x Hx. destruct (Hothers x (Hl x Hx)) as (v & Hv).
    rewrite (enrich_online d online x) in Hv. injection Hv as Hv. eauto. }
  destruct (Hpart l1) as (vs1 & Hvs1); [intros x Hx; apply in_or_app; now left|].
  destruct (Hpart l2) as (vs2 & Hvs2); [intros x Hx; apply in_or_app; now right|].
  assert (view_of (collection d "product") it = Ok (cart_view it None (PyInt 0))) as Hit.
  { unfold view_of. now rewrite (unresolved_product_of d it online Hun). }
  exists vs1, (cart_view it None (PyInt 0)), vs2.
  split.
  { rewrite (get_cart_online d online), Hcart.
    rewrite (traverse_app _ l1 (it :: l2) vs1 (cart_view it None (PyInt 0) :: vs2) Hvs1).
    - reflexivity.
    - cbn. rewrite Hit. cbn. now rewrite Hvs2. }
  split; [now apply traverse_length in Hvs1|].
  split; [now apply traverse_length in Hvs2|].
  do 3 (split; [reflexivity|]). split.
  - intros v Hv. unfold cart_view, doc_get, Py.get. rewrite Hv. reflexivity.
  - intros q Hq. unfold cart_view, doc_get_or, Py.get_or. rewrite Hq. reflexivity.
Qed.

Lemma get_cart_unresolved_witness :
  ∃ vs1 view vs2,
    get_cart (Some stocked_store) =
      (Ok {[ "items" := PyList (PyDict <$> (vs1 ++ view :: vs2)) ]}, Some stocked_store) ∧
    length vs1 = 1%nat ∧
    length vs2 = 0%nat ∧
    view !! "title" = Some PyNone ∧
    view !! "price" = Some (PyInt 0) ∧
    view !! "image" = Some PyNone ∧
    view !! "size" = Some (PyStr "M") ∧
    view !! "quantity" = Some (PyInt 3).
Proof.
  destruct (get_cart_unresolved stocked_store [tee_item] [] dangling_item)
    as (vs1 & view & vs2 & H & H1 & H2 & Ht & Hp & Hi & Hs & Hq).
  - reflexivity.
  - reflexivity.
  - right. exists stocked_store, "0000000000000000000000ff", (ObjectId.generate 255).
    repeat split. intros doc [<-|[]]. vm_compute. discriminate.
  - intros x [<-|[]]. eexists. vm_compute. reflexivity.
  - exists vs1, view, vs2. repeat split; try assumption.
    + apply Hs. reflexivity.
    + apply Hq. reflexivity.
Defined.

Lemma view_of_price_ok d it :
  prices_nonneg d →
  ∃ v, view_of (collection d "product") it = Ok v ∧ price_ok d it v.
Proof.
  intros Hprices. unfold view_of, price_ok.
  destruct (product_of (collection d "product") it) as [p|] eqn:Hp.
  - destruct (Hprices p (product_of_in _ _ _ Hp)) as (f & Hf & Hnn). rewrite Hf.
    eexists. split; [reflexivity|]. split.
    + exists f. split; [reflexivity | reflexivity].
    + exists (PyFloat f). split; [reflexivity | exact Hnn].
  - eexists. split; [reflexivity|]. split; [reflexivity|].
    exists (PyInt 0). split; reflexivity.
Qed.

(** C7, amended: the price in the view of a cart item is 0 when the item
    names no stored product, and else the price stored on the product, or
    0 when it has none, as [float] converts it, whatever its sign.  So
    when [float] converts every stored product price to a non-negative
    real number, [get_cart] returns one view per stored cart item, in
    order, each with a non-negative real price. *)
Theorem get_cart_price_nonneg (d : Database) :
  fault d = None →
  prices_nonneg d →
  ∃ views,
    get_cart (Some d) = (Ok {[ "items" := PyList (PyDict <$> views) ]}, Some d) ∧
    Forall2 (price_ok d) (collection d "cartitem") views.
Proof.
  intros online Hprices.
  destruct (traverse_all_ok (view_of (collection d "product")) (price_ok d)
              (collection d "cartitem")) as (views & Hviews & HF).
  { intros it _. now apply view_of_price_ok. }
  exists views. split; [|exact HF].
  rewrite (get_cart_online d online), Hviews. reflexivity.
Qed.

Lemma get_cart_price_nonneg_witness :
  ∃ views,
    get_cart (Some stocked_store) =
      (Ok {[ "items" := PyList (PyDict <$> views) ]}, Some stocked_store) ∧
    Forall2 (price_ok stocked_store) (collection stocked_store "cartitem") views.
Proof.
  apply (get_cart_price_nonneg stocked_store); [reflexivity|].
  intros p [<-|[]]. eexists. split; vm_compute; reflexivity.
Defined.

(** X1: over a working store in which [float] accepts every stored product
    price, [get_cart] returns one view per stored cart item, in the order
    of the store; each view carries the identifier, product_id, size and
    quantity of its item and the title, image and converted price of the
    product the item names. *)
Theorem get_cart_views (d : Database) :
  fault d = None →
  (∀ p, In p (collection d "product") → price_converts p) →
  ∃ views,
    get_cart (Some d) = (Ok (cart_response views), Some d) ∧
    Forall2 (item_view (collection d "product")) (collection d "cartitem") views.
Proof.
  intros online Hprices.
  destruct (traverse_all_ok (view_of (collection d "product"))
              (item_view (collection d "product")) (collection d "cartitem"))
    as (views & Hviews & HF).
  { intros it _. now apply view_of_ok. }
  exists views. split; [|exact HF].
  rewrite (get_cart_online d online), Hviews. reflexivity.
Qed.

Lemma get_cart_views_witness :
  ∃ views,
    get_cart (Some stocked_store) = (Ok (cart_response views), Some stocked_store) ∧
    Forall2 (item_view (collection stocked_store "product"))
            (collection stocked_store "cartitem") views.
Proof.
  apply (get_cart_views stocked_store); [reflexivity|].
  intros p [<-|[]]. eexists. vm_compute. reflexivity.
Defined.

(** X2: one cart item that names a product whose stored price [float]
    rejects makes [get_cart] answer 500 for the whole cart. *)
Theorem get_cart_poisoned (d : Database) (it p : document) (e0 : exn) :
  fault d = None →
  In it (collection d "cartitem") →
  product_of (collection d "product") it = Some p →
  Py.float (stored_price p) = Err e0 →
  ∃ e, get_cart (Some d) = (Err (HTTPException 500 (StrOf e)), Some d).
Proof.
  intros online Hin Hp Hf.
  assert (view_of (collection d "product") it = Err e0) as Hv.
  { unfold view_of. now rewrite Hp, Hf. }
  destruct (traverse_err _ _ _ _ Hin Hv) as (e & He).
  exists e. rewrite (get_cart_online d online), He. reflexivity.
Qed.

Lemma get_cart_poisoned_witness :
  ∃ e, get_cart (Some poisoned_store) =
         (Err (HTTPException 500 (StrOf e)), Some poisoned_store).
Proof.
  apply (get_cart_poisoned poisoned_store poisoned_item unpriced_product ValueError).
  - reflexivity.
  - left. reflexivity.
  - vm_compute. reflexivity.
  - vm_compute. reflexivity.
Defined.

Lemma product_of_cart_item products body oid i :
  ObjectId.of_str (product_id body) = Some oid →
  product_of products {| _id := i; fields := cart_item body |} = find_by_id products oid.
Proof.
  intros Hoid. unfold product_of.
  change (doc_get_or {| _id := i; fields := cart_item body |} "product_id" (PyStr ""))
    with (PyStr (product_id body)).
  cbv beta iota. now rewrite Hoid.
Qed.

(** X3: a cart item accepted by [add_to_cart] shows up in the next
    [get_cart] as the last view, after the views there were, under the
    identifier [add_to_cart] returned, with the product_id, size and
    quantity of the request and the title, image and converted price of
    the product. *)
Theorem add_to_cart_then_get_cart (d : Database) (body : AddToCartRequest) oid prod l :
  fault d = None →
  (∀ p, In p (collection d "product") → price_converts p) →
  ObjectId.of_str (product_id body) = Some oid →
  find_by_id (collection d "product") oid = Some prod →
  offered_sizes prod = PyList l →
  In (PyStr (size body)) l →
  ∃ cid d' views view f,
    add_to_cart body (Some d) = (Ok (added cid), Some d') ∧
    get_cart (Some d) = (Ok (cart_response views), Some d) ∧
    get_cart (Some d') = (Ok (cart_response (views ++ [view])), Some d') ∧
    view !! "id" = Some (PyStr cid) ∧
    view !! "product_id" = Some (PyStr (product_id body)) ∧
    view !! "size" = Some (PyStr (size body)) ∧
    view !! "quantity" = Some (PyInt (quantity body)) ∧
    view !! "title" = Some (doc_get prod "title") ∧
    view !! "image" = Some (doc_get prod "image") ∧
    Py.float (stored_price prod) = Ok f ∧
    view !! "price" = Some (PyFloat f).
Proof.
  intros online Hprices Hoid Hfound Hsizes Hin.
  destruct (Hprices prod (proj1 (find_by_id_some _ _ _ Hfound))) as (f & Hf).
  destruct (traverse_all_ok (view_of (collection d "product"))
              (item_view (collection d "product")) (collection d "cartitem"))
    as (views & Hviews & _).
  { intros it _. now apply view_of_ok. }
  set (item := {| _id := next_id d; fields := cart_item body |}).
  exists (ObjectId.to_str (next_id d)), (insert_one d "cartitem" (cart_item body)),
         views, (cart_view item (Some prod) (PyFloat f)), f.
  split.
  { rewrite (add_to_cart_lookup d body online oid Hoid), Hfound, Hsizes.
    apply contains_list in Hin. now rewrite Hin. }
  split.
  { rewrite (get_cart_online d online), Hviews. reflexivity. }
  split.
  { rewrite (get_cart_online _ (insert_one_online d online "cartitem" (cart_item body))).
    rewrite collection_insert_one, collection_insert_one_ne by done.
    fold item.
    assert (view_of (collection d "product") item
            = Ok (cart_view item (Some prod) (PyFloat f))) as Hitem.
    { unfold view_of. unfold item at 1.
      rewrite (product_of_cart_item _ body oid _ Hoid), Hfound, Hf. reflexivity. }
    rewrite (traverse_snoc _ _ _ _ _ Hviews Hitem). reflexivity. }
  repeat split. exact Hf.
Qed.

Lemma add_to_cart_then_get_cart_witness :
  ∃ cid d' views view f,
    add_to_cart (demo_request "M" 2) (Some demo_store) = (Ok (added cid), Some d') ∧
    get_cart (Some demo_store) = (Ok (cart_response views), Some demo_store) ∧
    get_cart (Some d') = (Ok (cart_response (views ++ [view])), Some d') ∧
    view !! "id" = Some (PyStr cid) ∧
    view !! "product_id" = Some (PyStr (product_id (demo_request "M" 2))) ∧
    view !! "size" = Some (PyStr (size (demo_request "M" 2))) ∧
    view !! "quantity" = Some (PyInt (quantity (demo_request "M" 2))) ∧
    view !! "title" = Some (doc_get demo_product "title") ∧
    view !! "image" = Some (doc_get demo_product "image") ∧
    Py.float (stored_price demo_product) = Ok f ∧
    view !! "price" = Some (PyFloat f).
Proof.
  apply (add_to_cart_then_get_cart demo_store (demo_request "M" 2)
           (ObjectId.generate 7) demo_product [PyStr "S"; PyStr "M"]).
  - reflexivity.
  - intros p [<-|[]]. eexists. vm_compute. reflexivity.
  - vm_compute. reflexivity.
  - vm_compute. reflexivity.
  - vm_compute. reflexivity.
  - right. left. reflexivity.
Defined.

(** ** Failures of [add_to_cart] outside its [try] *)

(** X4: the product lookup of [add_to_cart] stands outside its [try]: for
    a well-formed product_id, a store that cannot be reached lets the
    failure of the lookup out as it is, and a missing database handle
    gives a [TypeError]; neither is turned into an [HTTPException], and
    nothing is inserted. *)
Theorem add_to_cart_lookup_failure_escapes (body : AddToCartRequest) (s : option Database) :
  hex24 (product_id body) →
  (s = None → add_to_cart body s = (Err TypeError, s)) ∧
  (∀ d why, s = Some d → fault d = Some why →
            add_to_cart body s = (Err (StoreError why), s)).
Proof.
  intros Hhex. apply hex24_well_formed in Hhex.
  assert (ObjectId.is_valid (PyStr (product_id body)) = true) as Hv
    by now apply is_valid_str.
  destruct (proj2 (of_str_some _) Hhex) as (oid & Hoid).
  split.
  - intros ->. unfold add_to_cart. rewrite Hv. cbn [negb].
    unfold ObjectId.new. rewrite Hoid. reflexivity.
  - intros d why -> Hf. unfold add_to_cart. rewrite Hv. cbn [negb].
    unfold ObjectId.new. rewrite Hoid.
    unfold mbind, M_bind, lift, find_one. rewrite Hf. reflexivity.
Qed.

Lemma add_to_cart_lookup_failure_escapes_witness :
  add_to_cart (demo_request "S" 1) None = (Err TypeError, None) ∧
  add_to_cart (demo_request "S" 1) (Some faulty_store) =
    (Err (StoreError "timed out"), Some faulty_store).
Proof.
  assert (hex24 (product_id (demo_request "S" 1))) as H.
  { split; [reflexivity|]. repeat constructor; vm_compute; eauto. }
  split.
  - apply (proj1 (add_to_cart_lookup_failure_escapes (demo_request "S" 1) None H)).
    reflexivity.
  - apply (proj2 (add_to_cart_lookup_failure_escapes (demo_request "S" 1)
                    (Some faulty_store) H) faulty_store "timed out");
      reflexivity.
Defined.

(** X5: when the stored [sizes] of the product is a true value that is a
    number or a boolean, the membership test of [add_to_cart] raises
    [TypeError], whatever the size asked for: the request gets neither a
    400 nor a cart item. *)
Theorem add_to_cart_sizes_not_iterable (d : Database) (body : AddToCartRequest) oid prod :
  fault d = None →
  ObjectId.of_str (product_id body) = Some oid →
  find_by_id (collection d "product") oid = Some prod →
  Py.truthy (doc_get prod "sizes") = true →
  (∃ z, doc_get prod "sizes" = PyInt z) ∨
  (∃ f, doc_get prod "sizes" = PyFloat f) ∨
  (∃ b, doc_get prod "sizes" = PyBool b) →
  add_to_cart body (Some d) = (Err TypeError, Some d).
Proof.
  intros online Hoid Hfound Htrue Hkind.
  rewrite (add_to_cart_lookup d body online oid Hoid), Hfound.
  unfold offered_sizes, Py.or_. rewrite Htrue.
  destruct Hkind as [(z & ->)|[(f & ->)|(b & ->)]]; reflexivity.
Qed.

Lemma add_to_cart_sizes_not_iterable_witness :
  add_to_cart (demo_request "S" 1) (Some (store_of [odd_sizes_product])) =
    (Err TypeError, Some (store_of [odd_sizes_product])).
Proof.
  apply (add_to_cart_sizes_not_iterable (store_of [odd_sizes_product])
           (demo_request "S" 1) (ObjectId.generate 7) odd_sizes_product).
  - reflexivity.
  - vm_compute. reflexivity.
  - vm_compute. reflexivity.
  - vm_compute. reflexivity.
  - left. exists 3. vm_compute. reflexivity.
Defined.

(** ** The product listings *)

Lemma normalize_product_full_entry it f :
  Py.float (stored_price it) = Ok f →
  ∃ out, normalize_product_full it = Ok out ∧ full_entry it out.
Proof.
  intros Hf. unfold normalize_product_full. unfold stored_price in Hf. rewrite Hf.
  cbn [mbind result_bind]. eexists. split; [reflexivity|].
  unfold full_entry. do 3 (split; [reflexivity|]).
  split; [exists f; split; [exact Hf | reflexivity]|].
  do 4 (split; [reflexivity|]).
  intros k [v Hv].
  repeat (apply lookup_insert_Some in Hv as [[<- _]|[_ Hv]]; [cbn; tauto|]).
  rewrite lookup_empty in Hv. discriminate.
Qed.

(** X6: over a working store in which [float] accepts every stored product
    price, [list_products_full] returns one entry per stored product, in
    the order of the store; an entry has exactly the eight keys of the full
    form, with the identifier of its document as text, and title,
    description, category and image as stored, null when missing. *)
Theorem list_products_full_entries (d : Database) :
  fault d = None →
  (∀ p, In p (collection d "product") → price_converts p) →
  ∃ outs,
    list_products_full (Some d) = (Ok outs, Some d) ∧
    Forall2 full_entry (collection d "product") outs.
Proof.
  intros online Hprices.
  destruct (traverse_all_ok normalize_product_full full_entry (collection d "product"))
    as (outs & Houts & HF).
  { intros it Hin. destruct (Hprices it Hin) as (f & Hf).
    now apply (normalize_product_full_entry it f). }
  exists outs. split; [|exact HF].
  rewrite (list_products_full_online d online), Houts. reflexivity.
Qed.

Lemma list_products_full_entries_witness :
  ∃ outs,
    list_products_full (Some (store_of [bare_product; two_sizes_product])) =
      (Ok outs, Some (store_of [bare_product; two_sizes_product])) ∧
    Forall2 full_entry (collection (store_of [bare_product; two_sizes_product]) "product") outs.
Proof.
  apply (list_products_full_entries (store_of [bare_product; two_sizes_product]));
    [reflexivity|].
  intros p [<-|[<-|[]]]; eexists; vm_compute; reflexivity.
Defined.

(** X7: one stored product whose price [float] rejects makes both
    [list_products] and [list_products_full] answer 500, whatever the
    other products are; no partial listing is returned. *)
Theorem listings_poisoned (d : Database) (it : document) (e0 : exn) :
  fault d = None →
  In it (collection d "product") →
  Py.float (stored_price it) = Err e0 →
  (∃ e, list_products (Some d) = (Err (HTTPException 500 (StrOf e)), Some d)) ∧
  (∃ e, list_products_full (Some d) = (Err (HTTPException 500 (StrOf e)), Some d)).
Proof.
  intros online Hin Hf. unfold stored_price in Hf. split.
  - assert (normalize_product it = Err e0) as Hn.
    { unfold normalize_product. now rewrite Hf. }
    destruct (traverse_err _ _ _ _ Hin Hn) as (e & He).
    exists e. rewrite (list_products_online d online), He. reflexivity.
  - assert (normalize_product_full it = Err e0) as Hn.
    { unfold normalize_product_full. now rewrite Hf. }
    destruct (traverse_err _ _ _ _ Hin Hn) as (e & He).
    exists e. rewrite (list_products_full_online d online), He. reflexivity.
Qed.

Lemma listings_poisoned_witness :
  (∃ e, list_products (Some (store_of [bare_product; sized_bad_price_product])) =
          (Err (HTTPException 500 (StrOf e)),
           Some (store_of [bare_product; sized_bad_price_product]))) ∧
  (∃ e, list_products_full (Some (store_of [bare_product; sized_bad_price_product])) =
          (Err (HTTPException 500 (StrOf e)),
           Some (store_of [bare_product; sized_bad_price_product]))).
Proof.
  apply (listings_poisoned (store_of [bare_product; sized_bad_price_product])
           sized_bad_price_product ValueError).
  - reflexivity.
  - right. left. reflexivity.
  - vm_compute. reflexivity.
Defined.

(** X8: whatever the state of the store, missing, unreachable or working,
    [list_products], [list_products_full] and [get_cart] leave it as it is,
    and when they fail they fail with an [HTTPException] of status 500. *)
Theorem listings_read_only (s : option Database) :
  (∃ r, list_products s = (r, s) ∧ ok_or_500 r) ∧
  (∃ r, list_products_full s = (r, s) ∧ ok_or_500 r) ∧
  (∃ r, get_cart s = (r, s) ∧ ok_or_500 r).
Proof.
  assert (∀ A (r : result A), ok_or_500 (wrap_500 r)) as Hwrap.
  { intros A [a|e]; [left | right]; eauto. }
  destruct (store_cases s) as [(d & -> & online)|Hoff].
  - split; [|split]; eexists.
    + rewrite (list_products_online d online). split; [reflexivity | apply Hwrap].
    + rewrite (list_products_full_online d online). split; [reflexivity | apply Hwrap].
    + rewrite (get_cart_online d online). split; [reflexivity | apply Hwrap].
  - split; [|split].
    + destruct (get_documents_offline s "product" Hoff) as (e & He).
      eexists. unfold list_products, try_except. rewrite (bind_err _ _ _ _ _ He).
      split; [reflexivity | right; eauto].
    + destruct (get_documents_offline s "product" Hoff) as (e & He).
      eexists. unfold list_products_full, try_except. rewrite (bind_err _ _ _ _ _ He).
      split; [reflexivity | right; eauto].
    + destruct (get_documents_offline s "cartitem" Hoff) as (e & He).
      eexists. unfold get_cart, try_except. rewrite (bind_err _ _ _ _ _ He).
      split; [reflexivity | right; eauto].
Qed.

(** ** What is written is read back *)

Lemma normalize_product_created i p :
  SFleb Py.zero (schemas.price p) = true →
  normalize_product {| _id := i; fields := product_dict p |} = Ok (read_back p).
Proof.
  intros Hprice. destruct p as [t de pr c st sz im]. cbn in Hprice.
  set (p := {| schemas.title := t; schemas.description := de; schemas.price := pr;
               schemas.category := c; schemas.in_stock := st; schemas.sizes := sz;
               schemas.image := im |}).
  set (it := {| _id := i; fields := product_dict p |}).
  assert (doc_get_or it "title" (PyStr "Untitled") = PyStr t) as Ht by reflexivity.
  assert (doc_get it "description" = optional_str de) as Hd by reflexivity.
  assert (doc_get_or it "price" (PyInt 0) = PyFloat pr) as Hp by reflexivity.
  assert (doc_get_or it "category" (PyStr "apparel") = PyStr c) as Hc by reflexivity.
  assert (doc_get_or it "in_stock" (PyBool true) = PyBool st) as Hst by reflexivity.
  assert (doc_get it "sizes" = PyList (PyStr <$> sz)) as Hsz by reflexivity.
  assert (doc_get it "image" = optional_str im) as Hi by reflexivity.
  assert (∀ o, schemas.as_optional_str (optional_str o) = Ok o) as Hopt
    by (intros [x|]; reflexivity).
  assert (∀ ss, schemas.as_str_list_items (PyStr <$> ss) = Ok ss) as Hitems.
  { induction ss as [|x ss IH]; [reflexivity|].
    cbn. cbn in IH. rewrite IH. reflexivity. }
  unfold normalize_product. rewrite Ht, Hd, Hp, Hc, Hst, Hsz, Hi.
  cbn [Py.float mbind result_bind Py.truthy].
  unfold schemas.new. rewrite !Hopt.
  unfold schemas.as_price. rewrite Hprice.
  cbn [schemas.as_str mbind result_bind].
  unfold read_back, p. cbn [schemas.sizes schemas.title schemas.description
    schemas.price schemas.category schemas.in_stock schemas.image].
  destruct sz as [|x sz].
  - reflexivity.
  - change (Py.or_ _ _) with (PyList (PyStr <$> (x :: sz))).
    unfold schemas.as_str_list. rewrite Hitems. reflexivity.
Qed.

(** X10: a product stored by [create_product] goes last in the product
    collection and is read back by [list_products] as the last product,
    after those there were, field for field as it was created, except that
    an empty size list is read back as XS, S, M, L, XL. *)
Theorem create_product_then_list (d : Database) (p : schemas.Product) :
  fault d = None →
  SFleb Py.zero (schemas.price p) = true →
  ∃ d',
    create_product p (Some d) = (Ok (created (ObjectId.to_str (next_id d))), Some d') ∧
    collection d' "product" =
      collection d "product" ++ [ {| _id := next_id d; fields := product_dict p |} ] ∧
    (∀ ps, list_products (Some d) = (Ok ps, Some d) →
           list_products (Some d') = (Ok (ps ++ [read_back p]), Some d')).
Proof.
  intros online Hprice.
  exists (insert_one d "product" (product_dict p)).
  split.
  { unfold create_product. apply try_ok.
    now rewrite (bind_ok _ _ _ _ _ (create_document_online d online "product" _)). }
  split; [apply collection_insert_one|].
  intros ps Hps.
  rewrite (list_products_online d online) in Hps.
  rewrite (list_products_online _ (insert_one_online d online "product" _)).
  rewrite collection_insert_one.
  destruct (traverse normalize_product (collection d "product")) as [ps0|] eqn:Hps0;
    [|discriminate].
  injection Hps as <-.
  now rewrite (traverse_snoc _ _ _ _ _ Hps0 (normalize_product_created _ p Hprice)).
Qed.

Lemma create_product_then_list_witness :
  ∃ d',
    create_product cap (Some empty_store) =
      (Ok (created (ObjectId.to_str (next_id empty_store))), Some d') ∧
    collection d' "product" =
      collection empty_store "product" ++
        [ {| _id := next_id empty_store; fields := product_dict cap |} ] ∧
    (∀ ps, list_products (Some empty_store) = (Ok ps, Some empty_store) →
           list_products (Some d') = (Ok (ps ++ [read_back cap]), Some d')).
Proof.
  apply (create_product_then_list empty_store cap); vm_compute; reflexivity.
Defined.

(** ** The diagnostic response *)

(** X11: [test_database] reports the store by cases.  Without a handle:
    not initialized, not connected, no collections.  With a handle whose
    store answers: connected and working, with the first 10 of the
    collection names of the store, all of them when there are fewer.  With a handle whose store fails: connected, the
    failure text cut to 50 characters, no collections.  The field backend
    is the same in all three. *)
Theorem test_database_status (env : gmap string string) (s : option Database) :
  ∃ r,
    test_database env s = (Ok r, s) ∧
    r !! "backend" = Some (DText (Lit "✅ Running")) ∧
    match s with
    | None =>
        r !! "database" = Some (DText (Lit "⚠️  Available but not initialized")) ∧
        r !! "connection_status" = Some (DText (Lit "Not Connected")) ∧
        r !! "collections" = Some (DNames [])
    | Some d =>
        r !! "connection_status" = Some (DText (Lit "Connected")) ∧
        match fault d with
        | None =>
            r !! "database" = Some (DText (Lit "✅ Connected & Working")) ∧
            ∃ names,
              list_collection_names (Some d) = (Ok names, Some d) ∧
              r !! "collections" = Some (DNames (take 10 names)) ∧
              ∀ n, In n names ↔ is_Some (collections d !! n)
        | Some why =>
            r !! "database" =
              Some (DText (Cat (Lit "⚠️  Connected but Error: ")
                               (Slice (StrOf (StoreError why)) 50))) ∧
            r !! "collections" = Some (DNames [])
        end
    end.
Proof.
  destruct s as [d|].
  - destruct (fault d) as [why|] eqn:Hf.
    + eexists. split.
      { unfold test_database.
        cbv [mbind M_bind try_except get_db list_collection_names mret M_ret].
        rewrite Hf. reflexivity. }
      repeat split.
    + eexists. split.
      { unfold test_database.
        cbv [mbind M_bind try_except get_db list_collection_names mret M_ret].
        rewrite Hf. reflexivity. }
      do 3 (split; [reflexivity|]).
      eexists. split; [unfold list_collection_names; rewrite Hf; reflexivity|].
      split; [reflexivity|].
      intros n. rewrite in_map_iff. split.
      * intros ([k v] & <- & Hkv).
        apply list_elem_of_In, elem_of_map_to_list in Hkv. cbn. eauto.
      * intros [v Hv]. exists (n, v). split; [reflexivity|].
        now apply list_elem_of_In, elem_of_map_to_list.
  - eexists. split; [reflexivity|]. repeat split.
Qed.

(** X12: the response of [test_database] does not depend on the name of
    the database: the name written into database_name while probing is
    overwritten by the presence flag before the response is returned. *)
Theorem test_database_hides_name (env : gmap string string) (d : Database) (n : string) :
  fst (test_database env (Some (rename d n))) = fst (test_database env (Some d)).
Proof.
  unfold test_database.
  cbv [mbind M_bind try_except get_db list_collection_names mret M_ret].
  cbn [fault rename collections name].
  destruct (fault d); reflexivity.
Qed.

(** ** Writers without a reachable store *)

Lemma create_document_offline s coll data :
  (s = None ∨ ∃ d why, s = Some d ∧ fault d = Some why) →
  ∃ e, create_document coll data s = (Err e, s).
Proof.
  intros [-> | (d & why & -> & Hf)]; unfold create_document.
  - eauto.
  - rewrite Hf. eauto.
Qed.

(** X13: without a database handle, or with a store that cannot be
    reached, [create_product] and [seed_products] answer 500 and store
    nothing; unlike the lookup of [add_to_cart], every store call of theirs
    stands inside the [try]. *)
Theorem writers_fail_with_500 (s : option Database) (p : schemas.Product) :
  (s = None ∨ ∃ d why, s = Some d ∧ fault d = Some why) →
  (∃ e, create_product p s = (Err (HTTPException 500 (StrOf e)), s)) ∧
  (∃ e, seed_products s = (Err (HTTPException 500 (StrOf e)), s)).
Proof.
  intros Hoff. split.
  - destruct (create_document_offline s "product" (product_dict p) Hoff) as (e & He).
    exists e. unfold create_product, try_except.
    now rewrite (bind_err _ _ _ _ _ He).
  - destruct Hoff as [-> | (d & why & -> & Hf)].
    + eexists. reflexivity.
    + eexists. reflexivity.
Qed.

Lemma writers_fail_with_500_witness :
  (∃ e, create_product cap (Some faulty_store) =
          (Err (HTTPException 500 (StrOf e)), Some faulty_store)) ∧
  (∃ e, seed_products (Some faulty_store) =
          (Err (HTTPException 500 (StrOf e)), Some faulty_store)).
Proof.
  apply (writers_fail_with_500 (Some faulty_store) cap).
  right. exists faulty_store, "timed out". split; reflexivity.
Defined.
